(** * dydx.vote: the signature-relay helpers of [helpers/index.js]

    A shallow embedding of the vote / delegate validation pipeline:
    the typed-message builders, the two eligibility checks [canDelegate]
    and [canVote], and the two action processors [vote] and [delegate].

    JavaScript values are an inductive type, thrown values are [error]
    records with an optional numeric [code], and the asynchronous functions
    are computations in a state-and-exception monad over a [world] that
    records every remote query issued, the two pending-transaction
    collections and the notifications sent.  The collaborators of the file
    (web3, the database helpers, eth-sig-util, axios, process.env) are the
    fields of an [Env] record over which every theorem is quantified. *)

From Stdlib Require Import ZArith List String Ascii Bool Lia DecimalString.
Import ListNotations.
Open Scope string_scope.
Open Scope Z_scope.

(* ================================================================== *)
(** ** JavaScript values *)

(** Numbers are modelled as exact integers plus NaN: block heights, error
    codes and thresholds are integers, and the rounding of doubles beyond
    2^53 is outside the model. *)
Inductive number : Type :=
| NaN
| Num (z : Z).

(** The primitive values.  Objects and arrays are outside the model: the
    statements below are about calls whose arguments are primitives. *)
Inductive value : Type :=
| VUndefined
| VNull
| VBool (b : bool)
| VNum (n : number)
| VStr (s : string).

Definition typeof (x : value) : string :=
  match x with
  | VUndefined => "undefined"
  | VNull => "object"
  | VBool _ => "boolean"
  | VNum _ => "number"
  | VStr _ => "string"
  end.

(** [Array.prototype.includes(undefined)]: SameValueZero against undefined. *)
Definition is_undefined (x : value) : bool :=
  match x with VUndefined => true | _ => false end.

Definition includes_undefined (xs : list value) : bool := existsb is_undefined xs.

(* ------------------------------------------------------------------ *)
(** *** Strings *)

(** [String.prototype.toLowerCase] on ASCII text: A-Z go to a-z. *)
Definition lower_ascii (c : ascii) : ascii :=
  let n := nat_of_ascii c in
  if (65 <=? n)%nat && (n <=? 90)%nat then ascii_of_nat (n + 32) else c.

Fixpoint toLowerCase (s : string) : string :=
  match s with
  | EmptyString => EmptyString
  | String c rest => String (lower_ascii c) (toLowerCase rest)
  end.

(** [String.prototype.substring(2)]. *)
Definition substring2 (s : string) : string :=
  match s with
  | String _ (String _ rest) => rest
  | _ => EmptyString
  end.

(** [a.localeCompare(b)]; only its comparison with 0 is used by the code,
    and on printable ASCII text that is string equality.  Control
    characters are the business of [localeCompare_collated] below. *)
Definition localeCompare (a b : string) : Z :=
  match String.compare a b with
  | Eq => 0
  | Lt => -1
  | Gt => 1
  end.

(** [String(n)] for an integer: its decimal digits.  (JavaScript switches
    to exponent notation from 1e21 on, which is outside the model.) *)
Definition number_to_string (n : number) : string :=
  match n with
  | NaN => "NaN"
  | Num z => NilZero.string_of_int (Z.to_int z)
  end.

(** [String(x)], the conversion used by [+] and by [parseInt]. *)
Definition display_string (x : value) : string :=
  match x with
  | VUndefined => "undefined"
  | VNull => "null"
  | VBool true => "true"
  | VBool false => "false"
  | VNum n => number_to_string n
  | VStr s => s
  end.

(* ------------------------------------------------------------------ *)
(** *** Errors and results *)

(** A thrown object: [new Error(message)] with an optional [code]
    property; [name] tells the built-in TypeError and ReferenceError from
    plain errors. *)
Record error : Type := mkError {
  err_name : string;
  err_message : string;
  code : value
}.

Definition new_Error (msg : string) (c : Z) : error :=
  mkError "Error" msg (VNum (Num c)).

Definition TypeError (msg : string) : error := mkError "TypeError" msg VUndefined.
Definition ReferenceError (msg : string) : error := mkError "ReferenceError" msg VUndefined.

(** [typeof error.code == "number"] *)
Definition has_numeric_code (e : error) : bool :=
  String.eqb (typeof (code e)) "number".

Inductive result (A : Type) : Type :=
| Ok (a : A)
| Throw (e : error).
Arguments Ok {A} a.
Arguments Throw {A} e.

(** [x.toString()]: a TypeError on undefined and null. *)
Definition toString (x : value) : result string :=
  match x with
  | VUndefined => Throw (TypeError "Cannot read properties of undefined (reading 'toString')")
  | VNull => Throw (TypeError "Cannot read properties of null (reading 'toString')")
  | _ => Ok (display_string x)
  end.

(** [x.substring(2)]: only strings have the method. *)
Definition value_substring2 (x : value) : result string :=
  match x with
  | VStr s => Ok (substring2 s)
  | VUndefined => Throw (TypeError "Cannot read properties of undefined (reading 'substring')")
  | VNull => Throw (TypeError "Cannot read properties of null (reading 'substring')")
  | _ => Throw (TypeError "substring is not a function")
  end.

(* ------------------------------------------------------------------ *)
(** *** Numeric conversions *)

Definition is_space (c : ascii) : bool :=
  let n := nat_of_ascii c in
  (n =? 32)%nat || ((9 <=? n)%nat && (n <=? 13)%nat).

Fixpoint skip_spaces (s : string) : string :=
  match s with
  | String c rest => if is_space c then skip_spaces rest else s
  | EmptyString => s
  end.

Definition digit_of (radix : Z) (c : ascii) : option Z :=
  let n := Z.of_nat (nat_of_ascii c) in
  let d :=
    if (48 <=? n) && (n <=? 57) then Some (n - 48)
    else if (97 <=? n) && (n <=? 122) then Some (n - 87)
    else if (65 <=? n) && (n <=? 90) then Some (n - 55)
    else None in
  match d with
  | Some k => if k <? radix then Some k else None
  | None => None
  end.

(** Longest prefix of digits: the value read so far, whether a digit was
    seen, and what is left. *)
Fixpoint read_digits (radix : Z) (s : string) (acc : Z) (seen : bool)
  : Z * bool * string :=
  match s with
  | String c rest =>
      match digit_of radix c with
      | Some d => read_digits radix rest (acc * radix + d) true
      | None => (acc, seen, s)
      end
  | EmptyString => (acc, seen, s)
  end.

Definition read_sign (s : string) : Z * string :=
  match s with
  | String "-" rest => (-1, rest)
  | String "+" rest => (1, rest)
  | _ => (1, s)
  end.

Definition read_radix (s : string) : Z * string :=
  match s with
  | String "0" (String "x" rest) => (16, rest)
  | String "0" (String "X" rest) => (16, rest)
  | _ => (10, s)
  end.

(** [parseInt(x)] with no radix argument. *)
Definition parseInt (x : value) : number :=
  let '(sign, s1) := read_sign (skip_spaces (display_string x)) in
  let '(radix, s2) := read_radix s1 in
  let '(n, seen, _) := read_digits radix s2 0 false in
  if seen then Num (sign * n) else NaN.

(** [ToNumber] of a string holding an integer literal.  Where it answers
    [Num z], JavaScript answers z.  Literals with a fraction or an
    exponent, binary and octal literals and Infinity are outside the
    model, which answers NaN for them; no statement below relies on a NaN
    that comes from a string. *)
Definition string_to_number (s : string) : number :=
  let t := skip_spaces s in
  match t with
  | EmptyString => Num 0
  | _ =>
      let '(radix, s1) := read_radix t in
      let '(sign, s2) := if radix =? 16 then (1, s1) else read_sign s1 in
      let '(n, seen, rest) := read_digits radix s2 0 false in
      match skip_spaces rest with
      | EmptyString => if seen then Num (sign * n) else NaN
      | _ => NaN
      end
  end.

Definition to_number (x : value) : number :=
  match x with
  | VUndefined => NaN
  | VNull => Num 0
  | VBool true => Num 1
  | VBool false => Num 0
  | VNum n => n
  | VStr s => string_to_number s
  end.

Definition js_lt (a b : number) : bool :=
  match a, b with
  | Num x, Num y => x <? y
  | _, _ => false
  end.

Definition js_gt (a b : number) : bool := js_lt b a.

Definition js_sub (a b : number) : number :=
  match a, b with
  | Num x, Num y => Num (x - y)
  | _, _ => NaN
  end.

(* ================================================================== *)
(** ** Typed-data documents *)

Record type_field : Type := mkField {
  field_name : string;
  field_type : string
}.

Record typed_data : Type := mkTypedData {
  types : list (string * list type_field);
  primaryType : string;
  domain : list (string * value);
  message : list (string * value)
}.

Definition createVoteBySigMessage (id support : value) : typed_data :=
  let types :=
    [ ("EIP712Domain",
        [ mkField "name" "string";
          mkField "chainId" "uint256";
          mkField "verifyingContract" "address" ]);
      ("VoteEmitted",
        [ mkField "id" "uint256";
          mkField "support" "bool" ]) ] in
  {| types := types;
     primaryType := "VoteEmitted";
     domain :=
       [ ("name", VStr "dYdX Governance");
         ("chainId", VNum (Num 1));
         ("verifyingContract", VStr "0x7E9B1672616FF6D6629Ef2879419aaE79A9018D2") ];
     message :=
       [ ("id", id);
         ("support", support) ] |}.

Definition createDelegateBySigMessage (delegatee nonce expiry : value) : typed_data :=
  let types :=
    [ ("EIP712Domain",
        [ mkField "name" "string";
          mkField "version" "string";
          mkField "chainId" "uint256";
          mkField "verifyingContract" "address" ]);
      ("Delegate",
        [ mkField "delegatee" "address";
          mkField "nonce" "uint256";
          mkField "expiry" "uint256" ]) ] in
  {| types := types;
     primaryType := "Delegate";
     domain :=
       [ ("name", VStr "dYdX");
         ("version", VNum (Num 1));
         ("chainId", VNum (Num 1));
         ("verifyingContract", VStr "0x92D6C1e31e14520e676a687F0a93788B716BEff5") ];
     message :=
       [ ("delegatee", delegatee);
         ("nonce", nonce);
         ("expiry", expiry) ] |}.

(** The fields a document declares for a type name. *)
Fixpoint declared_fields (tys : list (string * list type_field)) (ty : string)
  : option (list string) :=
  match tys with
  | [] => None
  | (n, fs) :: rest =>
      if String.eqb n ty then Some (map field_name fs) else declared_fields rest ty
  end.

(* ================================================================== *)
(** ** Collaborators and the world they act on *)

(** The outcome of a promise once settled: rejections carry the instant at
    which they happen, which is what [Promise.all] races on. *)
Inductive promise (A : Type) : Type :=
| Fulfilled (a : A)
| Rejected (at_time : nat) (e : error).
Arguments Fulfilled {A} a.
Arguments Rejected {A} at_time e.

(** What [governor.methods.getProposalById(id).call()] resolves to. *)
Record proposal_data : Type := mkProposal {
  startBlock : value;
  endBlock : value;
  canceled : bool
}.

(** What [getVoteOnProposal(id, address).call()] resolves to. *)
Record vote_receipt : Type := mkReceipt {
  votingPower : value
}.

(** The object [vote] hands to [insertVoteTx]. *)
Record vote_tx : Type := mkVoteTx {
  vt_from : string;
  vt_v : value;
  vt_r : value;
  vt_s : value;
  vt_support : value;
  vt_proposalId : value;
  vt_type : string;
  vt_createdAt : Z;
  vt_executed : bool
}.

(** The object [delegate] hands to [insertDelegateTx]. *)
Record delegate_tx : Type := mkDelegateTx {
  dt_from : string;
  dt_delegatee : string;
  dt_v : value;
  dt_r : value;
  dt_s : value;
  dt_nonce : value;
  dt_expiry : value;
  dt_type : string;
  dt_createdAt : Z;
  dt_executed : bool
}.

(** Remote reads, as they are issued. *)
Inductive query : Type :=
| Q_balanceOf (address : string)
| Q_getDelegateeByType (address : string) (power : Z)
| Q_getProposalById (proposalId : value)
| Q_getVoteOnProposal (proposalId : value) (address : string)
| Q_getBlockNumber
| Q_getPowerAtBlock (address : string) (block : value) (power : Z)
| Q_delegationAllowed (address : string)
| Q_voteAllowed (address : string) (proposalId : value).

(** Everything [helpers/index.js] imports or reads from its environment.
    A contract [.call()] and a database helper return a promise; they do
    not throw synchronously. *)
Record Env : Type := mkEnv {
  (* web3.utils *)
  isAddress : string -> bool;
  (* @metamask/eth-sig-util *)
  recoverTypedSignature : typed_data -> string -> result string;
  (* dydxToken, governor, web3.eth *)
  balanceOf : string -> promise value;
  getDelegateeByType : string -> Z -> promise value;
  getProposalById : value -> promise proposal_data;
  getVoteOnProposal : value -> string -> promise vote_receipt;
  getBlockNumber : promise Z;
  getPowerAtBlock : string -> value -> Z -> promise value;
  (* helpers/database/awaitingTxs *)
  delegationAllowed : string -> promise unit;
  voteAllowed : string -> value -> promise unit;
  insertVoteTx_settles : vote_tx -> promise unit;
  insertDelegateTx_settles : delegate_tx -> promise unit;
  (* axios *)
  axios_get : string -> promise unit;
  (* process.env *)
  MIN_COMP : value;
  NOTIFICATION_HOOK : value;
  (* new Date() *)
  now : Z
}.

Record world : Type := mkWorld {
  queries : list query;
  voteTxs : list vote_tx;
  delegateTxs : list delegate_tx;
  requests : list string
}.

Definition empty_world : world := mkWorld [] [] [] [].

(* ------------------------------------------------------------------ *)
(** *** The monad of asynchronous functions *)

Definition M (A : Type) : Type := world -> result A * world.

Definition ret {A} (a : A) : M A := fun w => (Ok a, w).

Definition throw {A} (e : error) : M A := fun w => (Throw e, w).

Definition bind {A B} (m : M A) (k : A -> M B) : M B :=
  fun w =>
    match m w with
    | (Ok a, w') => k a w'
    | (Throw e, w') => (Throw e, w')
    end.

(** [try { body } catch (e) { handler }]: what the body did to the world
    before it threw stays done. *)
Definition try_catch {A} (body : M A) (handler : error -> M A) : M A :=
  fun w =>
    match body w with
    | (Ok a, w') => (Ok a, w')
    | (Throw e, w') => handler e w'
    end.

Definition lift {A} (r : result A) : M A :=
  match r with
  | Ok a => ret a
  | Throw e => throw e
  end.

Declare Scope js_scope.
Delimit Scope js_scope with js.
Notation "x <- c1 ;; c2" := (bind c1 (fun x => c2))
  (at level 100, c1 at next level, right associativity) : js_scope.
Notation "' pat <- c1 ;; c2" := (bind c1 (fun x => match x with pat => c2 end))
  (at level 100, pat pattern, c1 at next level, right associativity) : js_scope.
Notation "c1 ;; c2" := (bind c1 (fun _ => c2))
  (at level 100, right associativity) : js_scope.
Open Scope js_scope.

(** [if (cond) { throw e }] *)
Definition throw_if (cond : bool) (e : error) : M unit :=
  if cond then throw e else ret tt.

(** Issuing a remote read: the query is logged and its promise returned. *)
Definition call {A} (q : query) (p : promise A) : M (promise A) :=
  fun w => (Ok p, mkWorld (queries w ++ [q]) (voteTxs w) (delegateTxs w) (requests w)).

Definition await {A} (p : promise A) : M A :=
  match p with
  | Fulfilled a => ret a
  | Rejected _ e => throw e
  end.

Definition rejection {A} (p : promise A) : option (nat * error) :=
  match p with
  | Fulfilled _ => None
  | Rejected t e => Some (t, e)
  end.

(** The rejection that settles first; the earlier array slot wins a tie. *)
Fixpoint earliest (rs : list (option (nat * error))) : option (nat * error) :=
  match rs with
  | [] => None
  | None :: rest => earliest rest
  | Some (t, e) :: rest =>
      match earliest rest with
      | Some (t', e') => if (t' <? t)%nat then Some (t', e') else Some (t, e)
      | None => Some (t, e)
      end
  end.

(** [await Promise.all([p1, p2, p3, p4])] *)
Definition await_all4 {A B C D}
  (p1 : promise A) (p2 : promise B) (p3 : promise C) (p4 : promise D)
  : M (A * B * C * D) :=
  match p1, p2, p3, p4 with
  | Fulfilled a, Fulfilled b, Fulfilled c, Fulfilled d => ret (a, b, c, d)
  | _, _, _, _ =>
      match earliest [rejection p1; rejection p2; rejection p3; rejection p4] with
      | Some (_, e) => throw e
      | None => throw (mkError "Error" "unsettled" VUndefined)
      end
  end.

(** Modelled from the spec: the persistence adapter's [insertVoteTx] of
    helpers/database/awaitingTxs, which stores a pending signed
    transaction; the record is added to the collection when the call
    settles successfully, and the call's rejection is thrown otherwise. *)
Definition insertVoteTx (env : Env) (tx : vote_tx) : M unit :=
  fun w =>
    match insertVoteTx_settles env tx with
    | Fulfilled _ =>
        (Ok tt, mkWorld (queries w) (voteTxs w ++ [tx]) (delegateTxs w) (requests w))
    | Rejected _ e => (Throw e, w)
    end.

(** Modelled from the spec: the persistence adapter's [insertDelegateTx] of
    helpers/database/awaitingTxs, as [insertVoteTx] above. *)
Definition insertDelegateTx (env : Env) (tx : delegate_tx) : M unit :=
  fun w =>
    match insertDelegateTx_settles env tx with
    | Fulfilled _ =>
        (Ok tt, mkWorld (queries w) (voteTxs w) (delegateTxs w ++ [tx]) (requests w))
    | Rejected _ e => (Throw e, w)
    end.

(** [await axios.get(url)]: the request goes out, then its outcome. *)
Definition axios_get_await (env : Env) (url : string) : M unit :=
  fun w =>
    let w' := mkWorld (queries w) (voteTxs w) (delegateTxs w) (requests w ++ [url]) in
    match axios_get env url with
    | Fulfilled _ => (Ok tt, w')
    | Rejected _ e => (Throw e, w')
    end.

(* ------------------------------------------------------------------ *)
(** *** Identifier resolution *)

(** The bindings of the module: its imports and its top-level
    declarations, and the globals the file uses. *)
Definition module_scope : list string :=
  [ "DYDX_ABI"; "SIG_RELAYER_ABI"; "GOVERNOR_ABI"; "SIG_RELAYER_ADDRESS";
    "DYDX_ADDRESS"; "GOVERNOR_ADDRESS";
    "insertDelegateTx"; "insertVoteTx"; "delegationAllowed"; "voteAllowed";
    "pendingTransactions"; "fetchProposals"; "addProposals";
    "fetchCachedProposalsCount";
    "Web3"; "axios"; "recoverTypedSignature";
    "Web3Handler"; "createVoteBySigMessage"; "createDelegateBySigMessage";
    "canDelegate"; "canVote"; "isWhitelisted"; "vote"; "delegate";
    "getPendingTransactions";
    "process"; "Promise"; "Error"; "Date"; "parseInt"; "undefined" ].

(** The names bound inside [canVote]: parameters, the destructured
    [Web3Handler()] result, and its [let] declarations. *)
Definition canVote_scope : list string :=
  [ "address"; "proposalId"; "web3"; "dydxToken"; "governor";
    "proposal"; "votesDelegated"; "receipt"; "currentBlock" ] ++ module_scope.

(** Evaluating an identifier: a ReferenceError when nothing binds it. *)
Definition resolve (scope : list string) (x : string) : M unit :=
  if existsb (String.eqb x) scope then ret tt
  else throw (ReferenceError (x ++ " is not defined")).

(* ================================================================== *)
(** ** helpers/index.js *)

Definition blockchain_error : error :=
  new_Error "error fetching data from blockchain" 500.

(** The handler shared by every [catch] of the file: an error that
    carries a numeric code is rethrown, any other becomes the generic
    blockchain error. *)
Definition rethrow_or_blockchain {A} (e : error) : M A :=
  if has_numeric_code e then throw e else throw blockchain_error.

Definition whitelist : list string :=
  [ "0x5b3bffc0bcf8d4caec873fdcf719f60725767c98";
    "0x2b384212edc04ae8bb41738d05ba20e33277bf33" ].

Definition isWhitelisted (address : string) : bool :=
  existsb (String.eqb address) whitelist.

Section Helpers.

Variable env : Env.

(** [canDelegate(address, delegatee = "0x")].  [Web3Handler()] only builds
    the web3 and contract handles; it issues no read. *)
Definition canDelegate (address delegatee : value) : M unit :=
  let delegatee := if is_undefined delegatee then VStr "0x" else delegatee in
  (* Delegatee and address formatting *)
  delegatee <- lift (toString delegatee) ;;
  let delegatee := toLowerCase delegatee in
  address <- lift (toString address) ;;
  let address := toLowerCase address in
  (* Check for address *)
  throw_if (is_undefined (VStr address)) (new_Error "invalid address input" 422) ;;
  throw_if (negb (String.eqb delegatee "0x") && negb (isAddress env delegatee))
    (new_Error "invalid delegatee address" 422) ;;
  throw_if (negb (isAddress env address)) (new_Error "invalid from address" 422) ;;
  '(dydxBalance, currentDelegateeVoting, currentDelegateeProposition, _) <-
    try_catch
      (p1 <- call (Q_balanceOf address) (balanceOf env address) ;;
       p2 <- call (Q_getDelegateeByType address 0) (getDelegateeByType env address 0) ;;
       p3 <- call (Q_getDelegateeByType address 1) (getDelegateeByType env address 1) ;;
       p4 <- call (Q_delegationAllowed address) (delegationAllowed env address) ;;
       await_all4 p1 p2 p3 p4)
      rethrow_or_blockchain ;;
  (* Enforces a min dYdX balance *)
  throw_if (js_lt (parseInt dydxBalance) (parseInt (MIN_COMP env)))
    (new_Error "dYdX balance too low" 403) ;;
  (* If delegatee is specified, must not match both existing delegatees *)
  same <-
    (if String.eqb delegatee "0x" then ret false
     else
       voting <- lift (toString currentDelegateeVoting) ;;
       if negb (localeCompare delegatee (toLowerCase voting) =? 0) then ret false
       else
         proposition <- lift (toString currentDelegateeProposition) ;;
         ret (localeCompare delegatee (toLowerCase proposition) =? 0)) ;;
  throw_if same (new_Error "delegatee can not be current delegatee" 403).

(** The business rules of [canVote], lines 272-300: what runs once the
    chain and database reads have all come back. *)
Definition canVote_rules (address : string) (proposal : proposal_data)
  (receipt : vote_receipt) (currentBlock : Z) (votesDelegated : value) : M unit :=
  (* Not ongoing proposal. Leaves a 2400 block buffer for relaying *)
  throw_if
    (negb (js_gt (Num currentBlock) (to_number (startBlock proposal))
           && js_lt (Num currentBlock) (js_sub (to_number (endBlock proposal)) (Num 2400)))
     || canceled proposal)
    (new_Error "proposal voting period is not active" 400) ;;
  (* Require at least min comp COMP delegated *)
  throw_if
    (js_lt (parseInt votesDelegated) (parseInt (MIN_COMP env))
     && negb (isWhitelisted address))
    (new_Error "dYdX voting power is too low" 403) ;;
  (* Check address has not voted yet *)
  throw_if (js_gt (to_number (votingPower receipt)) (Num 0))
    (new_Error "address already voted" 400).

(** [canVote(address, proposalId)] *)
Definition canVote (address proposalId : value) : M unit :=
  (* Check for undefined inputs *)
  throw_if (String.eqb (typeof address) "undefined"
            || String.eqb (typeof proposalId) "undefined")
    (new_Error "invalid input" 422) ;;
  (* Force address formatting *)
  address <- lift (toString address) ;;
  let address := toLowerCase address in
  throw_if (negb (isAddress env address)) (new_Error "invalid from address" 422) ;;
  '(proposal, receipt, currentBlock, votesDelegated) <-
    try_catch
      (p1 <- call (Q_getProposalById proposalId) (getProposalById env proposalId) ;;
       resolve canVote_scope "governorBravo" ;;
       p2 <- call (Q_getVoteOnProposal proposalId address)
               (getVoteOnProposal env proposalId address) ;;
       p3 <- call Q_getBlockNumber (getBlockNumber env) ;;
       p4 <- call (Q_voteAllowed address proposalId) (voteAllowed env address proposalId) ;;
       '(proposal, receipt, currentBlock, _) <- await_all4 p1 p2 p3 p4 ;;
       (* Check prior delegated votes *)
       p5 <- call (Q_getPowerAtBlock address (startBlock proposal) 0)
               (getPowerAtBlock env address (startBlock proposal) 0) ;;
       votesDelegated <- await p5 ;;
       ret (proposal, receipt, currentBlock, votesDelegated))
      rethrow_or_blockchain ;;
  canVote_rules address proposal receipt currentBlock votesDelegated.

(** [r + s.substring(2) + v.substring(2)] *)
Definition join_signature (v r s : value) : result string :=
  match value_substring2 s with
  | Throw e => Throw e
  | Ok s2 =>
      match value_substring2 v with
      | Throw e => Throw e
      | Ok v2 => Ok (display_string r ++ s2 ++ v2)
      end
  end.

(** The [try] around [recoverTypedSignature] in [vote] and [delegate]:
    whatever is thrown inside becomes "invalid signature". *)
Definition recover_or_invalid (data : typed_data) (v r s : value) : M string :=
  try_catch
    (signature <- lift (join_signature v r s) ;;
     lift (recoverTypedSignature env data signature))
    (fun _ => throw (new_Error "invalid signature" 422)).

(** Send notification to admin using telegram (the tail of [vote] and of
    [delegate]). *)
Definition notify_admin (text : string) : M unit :=
  if negb (String.eqb (typeof (NOTIFICATION_HOOK env)) "undefined")
  then axios_get_await env (display_string (NOTIFICATION_HOOK env) ++ text)
  else ret tt.

(** [vote(address, proposalId, support, v, r, s)] *)
Definition vote (address proposalId support v r s : value) : M unit :=
  (* Check for undefined inputs *)
  throw_if (includes_undefined [address; proposalId; support; v; r; s])
    (new_Error "invalid input" 422) ;;
  (* Force address formatting *)
  address <- lift (toString address) ;;
  let address := toLowerCase address in
  let data := createVoteBySigMessage proposalId support in
  sigAddress <- recover_or_invalid data v r s ;;
  (* Force address formatting *)
  let sigAddress := toLowerCase sigAddress in
  (* Address verified to create sig and alleged must match *)
  throw_if (negb (localeCompare address sigAddress =? 0))
    (new_Error "invalid signature" 422) ;;
  try_catch (canVote (VStr address) proposalId) rethrow_or_blockchain ;;
  (* Create new transactions *)
  let newTx :=
    {| vt_from := address;
       vt_v := v;
       vt_r := r;
       vt_s := s;
       vt_support := support;
       vt_proposalId := proposalId;
       vt_type := "vote";
       vt_createdAt := now env;
       vt_executed := false |} in
  (* Insert vote transaction to db *)
  insertVoteTx env newTx ;;
  notify_admin "New dydx.vote voting sig".

(** [delegate(address, delegatee, nonce, expiry, v, r, s)] *)
Definition delegate (address delegatee nonce expiry v r s : value) : M unit :=
  (* Validate input data *)
  throw_if (includes_undefined [address; delegatee; nonce; expiry; v; r; s])
    (new_Error "invalid input" 422) ;;
  (* Force address formatting *)
  address <- lift (toString address) ;;
  let address := toLowerCase address in
  delegatee <- lift (toString delegatee) ;;
  let delegatee := toLowerCase delegatee in
  let data := createDelegateBySigMessage (VStr delegatee) nonce expiry in
  sigAddress <- recover_or_invalid data v r s ;;
  (* Force address formatting, twice *)
  let sigAddress := toLowerCase sigAddress in
  let sigAddress := toLowerCase sigAddress in
  (* Address verified to create sig and alleged must match *)
  throw_if (negb (localeCompare sigAddress address =? 0))
    (new_Error "given address does not match signer address" 422) ;;
  try_catch (canDelegate (VStr address) (VStr delegatee)) rethrow_or_blockchain ;;
  (* Create transaction *)
  let newTx :=
    {| dt_from := address;
       dt_delegatee := delegatee;
       dt_v := v;
       dt_r := r;
       dt_s := s;
       dt_nonce := nonce;
       dt_expiry := expiry;
       dt_type := "delegate";
       dt_createdAt := now env;
       dt_executed := false |} in
  (* Insert transaction into db *)
  insertDelegateTx env newTx ;;
  notify_admin "New dydx.vote delegation sig".

End Helpers.

(* ================================================================== *)
(** ** A concrete environment *)

Definition is_lower_hex (c : ascii) : bool :=
  let n := nat_of_ascii c in
  ((48 <=? n)%nat && (n <=? 57)%nat) || ((97 <=? n)%nat && (n <=? 102)%nat).

Fixpoint all_lower_hex (s : string) : bool :=
  match s with
  | EmptyString => true
  | String c rest => is_lower_hex c && all_lower_hex rest
  end.

(** [web3.utils.isAddress] on lowercase text, which is all this file ever
    passes to it: an optional 0x and forty hexadecimal digits. *)
Definition lowercase_isAddress (s : string) : bool :=
  let body :=
    match s with
    | String "0" (String "x" rest) => rest
    | _ => s
    end in
  (String.length body =? 40)%nat && all_lower_hex body.

Definition alice : string := "0x00000000000000000000000000000000000a11ce".
Definition alice_checksummed : string := "0x00000000000000000000000000000000000A11cE".
Definition bob : string := "0x0000000000000000000000000000000000000b0b".
Definition carol : string := "0x00000000000000000000000000000000000ca401".

Definition sample_proposal : proposal_data := mkProposal (VStr "100") (VStr "10000") false.

(** A chain on which every read succeeds, parameterised by what the
    claims vary: the recovered signer, the two current delegates, the
    current block, the webhook and how its request settles. *)
Definition sample_env (signer : result string) (voting proposition : string)
  (block : Z) (hook : value) (hooked : promise unit) : Env :=
  {| isAddress := lowercase_isAddress;
     recoverTypedSignature := fun _ _ => signer;
     balanceOf := fun _ => Fulfilled (VStr "150");
     getDelegateeByType := fun _ t => Fulfilled (VStr (if t =? 0 then voting else proposition));
     getProposalById := fun _ => Fulfilled sample_proposal;
     getVoteOnProposal := fun _ _ => Fulfilled (mkReceipt (VStr "0"));
     getBlockNumber := Fulfilled block;
     getPowerAtBlock := fun _ _ _ => Fulfilled (VStr "150");
     delegationAllowed := fun _ => Fulfilled tt;
     voteAllowed := fun _ _ => Fulfilled tt;
     insertVoteTx_settles := fun _ => Fulfilled tt;
     insertDelegateTx_settles := fun _ => Fulfilled tt;
     axios_get := fun _ => hooked;
     MIN_COMP := VStr "100";
     NOTIFICATION_HOOK := hook;
     now := 1700000000 |}.

Definition sig_v : value := VStr "0x1b".
Definition sig_r : value := VStr "0xaaaa".
Definition sig_s : value := VStr "0xbbbb".

Definition hook_down : promise unit :=
  Rejected 0 (mkError "Error" "connect ECONNREFUSED" (VStr "ECONNREFUSED")).

(* ================================================================== *)
(** ** Auxiliary definitions for the statements *)

(** What the [try] of [vote] and [delegate] computes before the catch:
    the joined signature handed to [recoverTypedSignature]. *)
Definition recovered_signer (env : Env) (data : typed_data) (v r s : value)
  : result string :=
  match join_signature v r s with
  | Ok signature => recoverTypedSignature env data signature
  | Throw e => Throw e
  end.

(** A computation that only reads: the two collections and the outgoing
    requests are as before. *)
Definition keeps_store {A} (m : M A) : Prop :=
  forall w,
    voteTxs (snd (m w)) = voteTxs w
    /\ delegateTxs (snd (m w)) = delegateTxs w
    /\ requests (snd (m w)) = requests w.

(** The object literal [newTx] of [delegate]. *)
Definition delegate_record (env : Env) (address delegatee : string)
  (nonce expiry v r s : value) : delegate_tx :=
  {| dt_from := address;
     dt_delegatee := delegatee;
     dt_v := v;
     dt_r := r;
     dt_s := s;
     dt_nonce := nonce;
     dt_expiry := expiry;
     dt_type := "delegate";
     dt_createdAt := now env;
     dt_executed := false |}.

(** [delegate] from its eligibility check on, lines 442-478. *)
Definition delegate_validated (env : Env) (address delegatee : string)
  (nonce expiry v r s : value) : M unit :=
  try_catch (canDelegate env (VStr address) (VStr delegatee)) rethrow_or_blockchain ;;
  insertDelegateTx env (delegate_record env address delegatee nonce expiry v r s) ;;
  notify_admin env "New dydx.vote delegation sig".

(** The statement of C3 on this model: whenever [vote] or [delegate] has
    persisted its record, the call completes. *)
Definition notification_failure_isolated : Prop :=
  (forall env address proposalId support v r s w tx,
      voteTxs (snd (vote env address proposalId support v r s w))
        = (voteTxs w ++ [tx])%list ->
      fst (vote env address proposalId support v r s w) = Ok tt)
  /\
  (forall env address delegatee nonce expiry v r s w tx,
      delegateTxs (snd (delegate env address delegatee nonce expiry v r s w))
        = (delegateTxs w ++ [tx])%list ->
      fst (delegate env address delegatee nonce expiry v r s w) = Ok tt).

Definition result_map {A B} (f : A -> B) (r : result A) : result B :=
  match r with
  | Ok a => Ok (f a)
  | Throw e => Throw e
  end.

Definition promise_map {A B} (f : A -> B) (p : promise A) : promise B :=
  match p with
  | Fulfilled a => Fulfilled (f a)
  | Rejected t e => Rejected t e
  end.

Definition lower_value (x : value) : value :=
  match x with
  | VStr s => VStr (toLowerCase s)
  | _ => x
  end.

(** The same collaborators, except that the recovered signer and the
    current delegates come back already lowercased. *)
Definition lowercase_replies (env : Env) : Env :=
  {| isAddress := isAddress env;
     recoverTypedSignature :=
       fun data signature => result_map toLowerCase (recoverTypedSignature env data signature);
     balanceOf := balanceOf env;
     getDelegateeByType :=
       fun address power => promise_map lower_value (getDelegateeByType env address power);
     getProposalById := getProposalById env;
     getVoteOnProposal := getVoteOnProposal env;
     getBlockNumber := getBlockNumber env;
     getPowerAtBlock := getPowerAtBlock env;
     delegationAllowed := delegationAllowed env;
     voteAllowed := voteAllowed env;
     insertVoteTx_settles := insertVoteTx_settles env;
     insertDelegateTx_settles := insertDelegateTx_settles env;
     axios_get := axios_get env;
     MIN_COMP := MIN_COMP env;
     NOTIFICATION_HOOK := NOTIFICATION_HOOK env;
     now := now env |}.

(** The object literal [newTx] of [vote]. *)
Definition vote_record (env : Env) (address : string)
  (proposalId support v r s : value) : vote_tx :=
  {| vt_from := address;
     vt_v := v;
     vt_r := r;
     vt_s := s;
     vt_support := support;
     vt_proposalId := proposalId;
     vt_type := "vote";
     vt_createdAt := now env;
     vt_executed := false |}.

(** [vote] from its eligibility check on, lines 355-388. *)
Definition vote_validated (env : Env) (address : string)
  (proposalId support v r s : value) : M unit :=
  try_catch (canVote env (VStr address) proposalId) rethrow_or_blockchain ;;
  insertVoteTx env (vote_record env address proposalId support v r s) ;;
  notify_admin env "New dydx.vote voting sig".

(** The four reads that [canDelegate] fans out, in the order of the
    array literal of lines 165-174. *)
Definition delegation_reads (address : string) : list query :=
  [ Q_balanceOf address;
    Q_getDelegateeByType address 0;
    Q_getDelegateeByType address 1;
    Q_delegationAllowed address ].

(** The world once a list of reads has been issued. *)
Definition after_reads (w : world) (qs : list query) : world :=
  mkWorld (queries w ++ qs) (voteTxs w) (delegateTxs w) (requests w).

(** [canDelegate] from its balance rule on, lines 188-207. *)
Definition canDelegate_rules (env : Env) (delegatee : string)
  (dydxBalance currentDelegateeVoting currentDelegateeProposition : value) : M unit :=
  throw_if (js_lt (parseInt dydxBalance) (parseInt (MIN_COMP env)))
    (new_Error "dYdX balance too low" 403) ;;
  same <-
    (if String.eqb delegatee "0x" then ret false
     else
       voting <- lift (toString currentDelegateeVoting) ;;
       if negb (localeCompare delegatee (toLowerCase voting) =? 0) then ret false
       else
         proposition <- lift (toString currentDelegateeProposition) ;;
         ret (localeCompare delegatee (toLowerCase proposition) =? 0)) ;;
  throw_if same (new_Error "delegatee can not be current delegatee" 403).

(** The rejections of the four reads of [canDelegate], by array slot. *)
Definition delegation_rejections (env : Env) (address : string)
  : list (option (nat * error)) :=
  [ rejection (balanceOf env address);
    rejection (getDelegateeByType env address 0);
    rejection (getDelegateeByType env address 1);
    rejection (delegationAllowed env address) ].

(** The signature recovers, and to the given address up to case. *)
Definition signed_by (env : Env) (data : typed_data) (v r s : value)
  (address : string) : Prop :=
  exists signer,
    recovered_signer env data v r s = Ok signer
    /\ toLowerCase signer = toLowerCase address.

(** What a catch handler of the file throws for a caught error. *)
Definition translated (e : error) : error :=
  if has_numeric_code e then e else blockchain_error.

(* ------------------------------------------------------------------ *)
(** *** The locale comparison on text that is not validated yet *)

(** [localeCompare] above is the comparison on text without control
    characters.  Lines 349 and 436 compare a caller-supplied address
    before anything has validated it, and the collation behind
    [String.prototype.localeCompare] gives no weight at all to the ASCII
    control characters U+0000-U+0008, U+000E-U+001F and U+007F: two texts
    that differ only by such characters compare as 0.  (TAB, LF, VT, FF
    and CR are white space and do carry weight.) *)
Definition collation_ignorable (c : ascii) : bool :=
  let n := nat_of_ascii c in
  (n <=? 8)%nat || ((14 <=? n)%nat && (n <=? 31)%nat) || (n =? 127)%nat.

(** What the collation sees of a text: the characters it gives weight. *)
Fixpoint collation_key (s : string) : string :=
  match s with
  | EmptyString => EmptyString
  | String c rest =>
      if collation_ignorable c then collation_key rest
      else String c (collation_key rest)
  end.

(** [a.localeCompare(b)] on ASCII text that may hold control characters;
    as for [localeCompare], only the comparison with 0 is meaningful. *)
Definition localeCompare_collated (a b : string) : Z :=
  localeCompare (collation_key a) (collation_key b).

(** Printable ASCII, U+0020-U+007E: text on which the two comparisons
    agree. *)
Definition printable_char (c : ascii) : bool :=
  let n := nat_of_ascii c in
  (32 <=? n)%nat && (n <=? 126)%nat.

Fixpoint printable (s : string) : bool :=
  match s with
  | EmptyString => true
  | String c rest => printable_char c && printable rest
  end.

(** [vote(address, proposalId, support, v, r, s)], lines 320-389, with the
    comparison of line 349 as a parameter: [vote] is [vote_with
    localeCompare]. *)
Definition vote_with (env : Env) (compare : string -> string -> Z)
  (address proposalId support v r s : value) : M unit :=
  (* Check for undefined inputs *)
  throw_if (includes_undefined [address; proposalId; support; v; r; s])
    (new_Error "invalid input" 422) ;;
  (* Force address formatting *)
  address <- lift (toString address) ;;
  let address := toLowerCase address in
  let data := createVoteBySigMessage proposalId support in
  sigAddress <- recover_or_invalid env data v r s ;;
  (* Force address formatting *)
  let sigAddress := toLowerCase sigAddress in
  (* Address verified to create sig and alleged must match *)
  throw_if (negb (compare address sigAddress =? 0))
    (new_Error "invalid signature" 422) ;;
  try_catch (canVote env (VStr address) proposalId) rethrow_or_blockchain ;;
  (* Create new transactions *)
  let newTx :=
    {| vt_from := address;
       vt_v := v;
       vt_r := r;
       vt_s := s;
       vt_support := support;
       vt_proposalId := proposalId;
       vt_type := "vote";
       vt_createdAt := now env;
       vt_executed := false |} in
  (* Insert vote transaction to db *)
  insertVoteTx env newTx ;;
  notify_admin env "New dydx.vote voting sig".

(** [vote] on caller-supplied text of any kind: line 349 with the
    collation that ignores control characters. *)
Definition vote_collated (env : Env)
  (address proposalId support v r s : value) : M unit :=
  vote_with env localeCompare_collated address proposalId support v r s.

(** [delegate(address, delegatee, nonce, expiry, v, r, s)], lines
    401-479, with the comparison of line 436 as a parameter: [delegate]
    is [delegate_with localeCompare]. *)
Definition delegate_with (env : Env) (compare : string -> string -> Z)
  (address delegatee nonce expiry v r s : value) : M unit :=
  (* Validate input data *)
  throw_if (includes_undefined [address; delegatee; nonce; expiry; v; r; s])
    (new_Error "invalid input" 422) ;;
  (* Force address formatting *)
  address <- lift (toString address) ;;
  let address := toLowerCase address in
  delegatee <- lift (toString delegatee) ;;
  let delegatee := toLowerCase delegatee in
  let data := createDelegateBySigMessage (VStr delegatee) nonce expiry in
  sigAddress <- recover_or_invalid env data v r s ;;
  (* Force address formatting, twice *)
  let sigAddress := toLowerCase sigAddress in
  let sigAddress := toLowerCase sigAddress in
  (* Address verified to create sig and alleged must match *)
  throw_if (negb (compare sigAddress address =? 0))
    (new_Error "given address does not match signer address" 422) ;;
  try_catch (canDelegate env (VStr address) (VStr delegatee)) rethrow_or_blockchain ;;
  (* Create transaction *)
  let newTx :=
    {| dt_from := address;
       dt_delegatee := delegatee;
       dt_v := v;
       dt_r := r;
       dt_s := s;
       dt_nonce := nonce;
       dt_expiry := expiry;
       dt_type := "delegate";
       dt_createdAt := now env;
       dt_executed := false |} in
  (* Insert transaction into db *)
  insertDelegateTx env newTx ;;
  notify_admin env "New dydx.vote delegation sig".

(** [delegate] on caller-supplied text of any kind: line 436 with the
    collation that ignores control characters. *)
Definition delegate_collated (env : Env)
  (address delegatee nonce expiry v r s : value) : M unit :=
  delegate_with env localeCompare_collated address delegatee nonce expiry v r s.

(** The statement of C4 on [vote_collated]: whenever the arguments are
    defined, the address converts to text, and the recovery throws or
    yields a signer that differs from the address once both are
    lowercased, the call throws "invalid signature" (422) and leaves the
    world as it was. *)
Definition wrong_signer_always_invalid_signature : Prop :=
  forall env address proposalId support v r s a w,
    includes_undefined [address; proposalId; support; v; r; s] = false ->
    toString address = Ok a ->
    (forall signer,
        recovered_signer env (createVoteBySigMessage proposalId support) v r s = Ok signer ->
        toLowerCase signer <> toLowerCase a) ->
    vote_collated env address proposalId support v r s w
      = (Throw (new_Error "invalid signature" 422), w).

(** An integer that a double holds exactly, whatever it is: up to 2^53
    in absolute value.  On such integers the exact comparisons of
    [js_lt] are the comparisons of JavaScript numbers. *)
Definition safe_integer (z : Z) : Prop := Z.abs z <= 2 ^ 53.

(* ================================================================== *)
(** ** Basic facts *)

Lemma lower_ascii_idempotent (c : ascii) :
  lower_ascii (lower_ascii c) = lower_ascii c.
Proof.
  destruct c as [[] [] [] [] [] [] [] []]; reflexivity.
Qed.

Lemma toLowerCase_idempotent (s : string) :
  toLowerCase (toLowerCase s) = toLowerCase s.
Proof.
  induction s as [|c s IH]; simpl.
  - reflexivity.
  - now rewrite lower_ascii_idempotent, IH.
Qed.

Lemma string_compare_refl (a : string) : String.compare a a = Eq.
Proof.
  pose proof (String.compare_antisym a a) as H.
  destruct (String.compare a a); simpl in H; congruence.
Qed.

Lemma localeCompare_zero (a b : string) :
  (localeCompare a b =? 0) = true <-> a = b.
Proof.
  unfold localeCompare. split.
  - destruct (String.compare a b) eqn:E; simpl; intro H; try discriminate.
    now apply String.compare_eq_iff.
  - intros ->. now rewrite string_compare_refl.
Qed.

Lemma localeCompare_nonzero (a b : string) :
  (localeCompare a b =? 0) = false <-> a <> b.
Proof.
  rewrite <- (localeCompare_zero a b).
  destruct (localeCompare a b =? 0); split; intro H; congruence.
Qed.

Lemma typeof_undefined (x : value) :
  String.eqb (typeof x) "undefined" = is_undefined x.
Proof.
  destruct x; reflexivity.
Qed.

Lemma is_undefined_false (x : value) :
  x <> VUndefined -> is_undefined x = false.
Proof.
  destruct x; simpl; congruence.
Qed.

Lemma governorBravo_unbound :
  existsb (String.eqb "governorBravo") canVote_scope = false.
Proof.
  reflexivity.
Qed.

(** The fetch phase of [canVote] never gets past its second array
    element: the proposal read is issued, then the ReferenceError is
    caught and replaced. *)
Lemma canVote_from_valid (env : Env) (address proposalId : value) (s : string) (w : world) :
  address <> VUndefined ->
  proposalId <> VUndefined ->
  toString address = Ok s ->
  isAddress env (toLowerCase s) = true ->
  canVote env address proposalId w =
    (Throw blockchain_error,
     mkWorld (queries w ++ [Q_getProposalById proposalId])
             (voteTxs w) (delegateTxs w) (requests w)).
Proof.
  intros Ha Hp Hs Hv.
  unfold canVote, bind, throw_if.
  rewrite !typeof_undefined, (is_undefined_false _ Ha), (is_undefined_false _ Hp).
  cbn [orb ret]. rewrite Hs. cbn [lift ret]. rewrite Hv. cbn [negb ret].
  (* the try block: one read is issued, then [governorBravo] fails to resolve *)
  unfold try_catch, bind, call, resolve.
  rewrite governorBravo_unbound. reflexivity.
Qed.

(** Whatever its arguments, [canVote] does not return. *)
Lemma canVote_never_returns (env : Env) (address proposalId : value) (w : world) :
  fst (canVote env address proposalId w) <> Ok tt.
Proof.
  unfold canVote, bind, throw_if.
  destruct (String.eqb (typeof address) "undefined" || String.eqb (typeof proposalId) "undefined");
    simpl; [discriminate|].
  destruct (toString address) as [s|e]; simpl; [|discriminate].
  destruct (isAddress env (toLowerCase s)); simpl; discriminate.
Qed.

(* ================================================================== *)
(** ** The typed-message builders *)

(** C9. The builders are functions of their arguments alone.  For every
    (id, support), [createVoteBySigMessage] returns a document whose
    primary type is "VoteEmitted", whose message is exactly the fields
    id and support, and whose domain is the fixed dYdX Governance
    descriptor; for every (delegatee, nonce, expiry),
    [createDelegateBySigMessage] returns a document whose primary type is
    "Delegate", whose message is exactly delegatee, nonce and expiry, and
    whose domain is the fixed dYdX descriptor.  In both documents the
    message and the domain carry the fields that the document's own type
    table declares for them, in the declared order. *)
Theorem message_builders_shape :
  (forall id support : value,
      let doc := createVoteBySigMessage id support in
      primaryType doc = "VoteEmitted"
      /\ message doc = [("id", id); ("support", support)]
      /\ domain doc =
           [ ("name", VStr "dYdX Governance");
             ("chainId", VNum (Num 1));
             ("verifyingContract", VStr "0x7E9B1672616FF6D6629Ef2879419aaE79A9018D2") ]
      /\ declared_fields (types doc) (primaryType doc) = Some (map fst (message doc))
      /\ declared_fields (types doc) "EIP712Domain" = Some (map fst (domain doc)))
  /\
  (forall delegatee nonce expiry : value,
      let doc := createDelegateBySigMessage delegatee nonce expiry in
      primaryType doc = "Delegate"
      /\ message doc = [("delegatee", delegatee); ("nonce", nonce); ("expiry", expiry)]
      /\ domain doc =
           [ ("name", VStr "dYdX");
             ("version", VNum (Num 1));
             ("chainId", VNum (Num 1));
             ("verifyingContract", VStr "0x92D6C1e31e14520e676a687F0a93788B716BEff5") ]
      /\ declared_fields (types doc) (primaryType doc) = Some (map fst (message doc))
      /\ declared_fields (types doc) "EIP712Domain" = Some (map fst (domain doc)))
  /\
  (forall id support id' support' : value,
      domain (createVoteBySigMessage id support) = domain (createVoteBySigMessage id' support')
      /\ types (createVoteBySigMessage id support) = types (createVoteBySigMessage id' support'))
  /\
  (forall d n e d' n' e' : value,
      domain (createDelegateBySigMessage d n e) = domain (createDelegateBySigMessage d' n' e')
      /\ types (createDelegateBySigMessage d n e) = types (createDelegateBySigMessage d' n' e')).
Proof.
  repeat split.
Qed.

(* ================================================================== *)
(** ** Voting eligibility *)

(** C2. For every address and proposalId that pass the input validation
    of [canVote] (both defined, the address convertible to text and
    accepted by isAddress once lowercased), [canVote] throws the generic
    error "error fetching data from blockchain" with code 500, having
    issued the proposal read and nothing else: evaluating [governorBravo]
    inside the try block throws before the remaining reads are issued.
    Hence it neither returns nor throws any of the three business-rule
    errors. *)
Theorem canVote_always_blockchain_error
  (env : Env) (address proposalId : value) (s : string) (w : world) :
  address <> VUndefined ->
  proposalId <> VUndefined ->
  toString address = Ok s ->
  isAddress env (toLowerCase s) = true ->
  let run := canVote env address proposalId w in
  fst run = Throw (new_Error "error fetching data from blockchain" 500)
  /\ queries (snd run) = (queries w ++ [Q_getProposalById proposalId])%list
  /\ fst run <> Ok tt
  /\ fst run <> Throw (new_Error "proposal voting period is not active" 400)
  /\ fst run <> Throw (new_Error "dYdX voting power is too low" 403)
  /\ fst run <> Throw (new_Error "address already voted" 400).
Proof.
  intros Ha Hp Hs Hv run. subst run.
  rewrite (canVote_from_valid env address proposalId s w Ha Hp Hs Hv).
  simpl. repeat split; discriminate.
Qed.

Lemma canVote_always_blockchain_error_witness :
  let run :=
    canVote (sample_env (Ok alice) bob bob 150 VUndefined (Fulfilled tt))
      (VStr alice_checksummed) (VNum (Num 7)) empty_world in
  fst run = Throw (new_Error "error fetching data from blockchain" 500)
  /\ queries (snd run) = (queries empty_world ++ [Q_getProposalById (VNum (Num 7))])%list
  /\ fst run <> Ok tt
  /\ fst run <> Throw (new_Error "proposal voting period is not active" 400)
  /\ fst run <> Throw (new_Error "dYdX voting power is too low" 403)
  /\ fst run <> Throw (new_Error "address already voted" 400).
Proof.
  apply (canVote_always_blockchain_error
           (sample_env (Ok alice) bob bob 150 VUndefined (Fulfilled tt))
           (VStr alice_checksummed) (VNum (Num 7)) alice_checksummed empty_world).
  - discriminate.
  - discriminate.
  - reflexivity.
  - reflexivity.
Defined.

(** The window test of lines 272-283, once it is reached: with numeric
    start and end blocks, [canVote_rules] throws "proposal voting period
    is not active" exactly when the current block is outside
    startBlock < currentBlock < endBlock - 2400 or the proposal is
    canceled. *)
Lemma canVote_rules_window (env : Env) (address : string) (proposal : proposal_data)
  (receipt : vote_receipt) (currentBlock : Z) (votesDelegated : value) (w : world)
  (sb eb : Z) :
  to_number (startBlock proposal) = Num sb ->
  to_number (endBlock proposal) = Num eb ->
  (fst (canVote_rules env address proposal receipt currentBlock votesDelegated w)
     = Throw (new_Error "proposal voting period is not active" 400)
   <-> (~ (sb < currentBlock < eb - 2400) \/ canceled proposal = true)).
Proof.
  intros Hs He. unfold canVote_rules, bind, throw_if, js_gt.
  rewrite Hs, He. simpl.
  destruct (sb <? currentBlock) eqn:E1; destruct (currentBlock <? eb - 2400) eqn:E2;
    destruct (canceled proposal) eqn:E3; cbn;
    try apply Z.ltb_lt in E1; try apply Z.ltb_ge in E1;
    try apply Z.ltb_lt in E2; try apply Z.ltb_ge in E2.
  all: try (split; [intros _; first [right; reflexivity | left; lia] | reflexivity]).
  (* inside the window and not canceled: only the later rules can throw *)
  split; [|intros [H|H]; [lia|discriminate]].
  match goal with |- context [if ?c then _ else _] => destruct c end;
    cbn; [discriminate|].
  destruct (to_number (votingPower receipt)) as [|y]; cbn; [discriminate|].
  destruct (0 <? y); cbn; discriminate.
Qed.

(** The code at the input of C1: a voter whose proposal, block height,
    voting power and receipt satisfy every rule of [canVote_rules], with
    a signature that recovers to the claimed address, is answered with
    the blockchain error and no record is persisted. *)
Theorem vote_eligible_voter_rejected :
  let env := sample_env (Ok alice) bob bob 150 VUndefined (Fulfilled tt) in
  getProposalById env (VNum (Num 7)) = Fulfilled sample_proposal
  /\ getBlockNumber env = Fulfilled 150
  /\ getPowerAtBlock env alice (startBlock sample_proposal) 0 = Fulfilled (VStr "150")
  /\ getVoteOnProposal env (VNum (Num 7)) alice = Fulfilled (mkReceipt (VStr "0"))
  /\ canVote_rules env alice sample_proposal (mkReceipt (VStr "0")) 150 (VStr "150") empty_world
       = (Ok tt, empty_world)
  /\ vote env (VStr alice) (VNum (Num 7)) (VBool true) sig_v sig_r sig_s empty_world
       = (Throw (new_Error "error fetching data from blockchain" 500),
          mkWorld [Q_getProposalById (VNum (Num 7))] [] [] []).
Proof.
  repeat split.
Qed.

(** The code at the input of C5: at currentBlock = startBlock the window
    rule itself answers "proposal voting period is not active" (400), but
    [canVote] never reaches it and answers the blockchain error (500). *)
Theorem canVote_at_start_block :
  let env := sample_env (Ok alice) bob bob 100 VUndefined (Fulfilled tt) in
  getProposalById env (VNum (Num 7)) = Fulfilled sample_proposal
  /\ getBlockNumber env = Fulfilled 100
  /\ fst (canVote_rules env alice sample_proposal (mkReceipt (VStr "0")) 100 (VStr "150") empty_world)
       = Throw (new_Error "proposal voting period is not active" 400)
  /\ fst (canVote env (VStr alice) (VNum (Num 7)) empty_world)
       = Throw (new_Error "error fetching data from blockchain" 500).
Proof.
  repeat split.
Qed.

(* ================================================================== *)
(** ** Signature check of [vote] *)

Lemma recover_or_invalid_spec (env : Env) (data : typed_data) (v r s : value) (w : world) :
  recover_or_invalid env data v r s w =
    match recovered_signer env data v r s with
    | Ok signer => (Ok signer, w)
    | Throw _ => (Throw (new_Error "invalid signature" 422), w)
    end.
Proof.
  unfold recover_or_invalid, recovered_signer, try_catch, bind, lift.
  destruct (join_signature v r s) as [sg|e]; cbn; [|reflexivity].
  destruct (recoverTypedSignature env data sg); reflexivity.
Qed.

(* ================================================================== *)
(** ** Delegation eligibility *)

(** The validation that does work, lines 143-157: with an address and a
    delegatee that convert to text, a delegatee other than "0x" that
    isAddress rejects, or a source address that isAddress rejects, is
    answered with code 422 before any read is issued. *)
Lemma canDelegate_invalid_input (env : Env) (address delegatee : value)
  (a d : string) (w : world) :
  toString address = Ok a ->
  toString (if is_undefined delegatee then VStr "0x" else delegatee) = Ok d ->
  (toLowerCase d <> "0x" /\ isAddress env (toLowerCase d) = false)
  \/ isAddress env (toLowerCase a) = false ->
  exists msg,
    canDelegate env address delegatee w = (Throw (new_Error msg 422), w).
Proof.
  intros Ha Hd Hbad.
  unfold canDelegate, bind, throw_if. rewrite Hd. cbn [lift ret].
  rewrite Ha. cbn [lift ret is_undefined].
  destruct (String.eqb_spec (toLowerCase d) "0x") as [E|E]; cbn [negb andb].
  - destruct Hbad as [[Hne _]|Hbad]; [contradiction|].
    rewrite Hbad. cbn. eauto.
  - destruct (isAddress env (toLowerCase d)) eqn:Ed; cbn.
    + destruct Hbad as [[_ Hbad]|Hbad]; [discriminate|].
      rewrite Hbad. cbn. eauto.
    + eauto.
Qed.

(** The code at the input of C7: called without a source address,
    [canDelegate] throws the TypeError of [address.toString()], which has
    no code, and not the 422 error of the check written two lines below. *)
Theorem canDelegate_undefined_address (env : Env) (w : world) :
  canDelegate env VUndefined VUndefined w
    = (Throw (TypeError "Cannot read properties of undefined (reading 'toString')"), w)
  /\ canDelegate env VUndefined (VStr "0x") w
    = (Throw (TypeError "Cannot read properties of undefined (reading 'toString')"), w)
  /\ code (TypeError "Cannot read properties of undefined (reading 'toString')") = VUndefined
  /\ fst (canDelegate env VUndefined VUndefined w) <> Throw (new_Error "invalid address input" 422).
Proof.
  repeat split. discriminate.
Qed.

Lemma localeCompare_eqb (a b : string) :
  (localeCompare a b =? 0) = String.eqb a b.
Proof.
  destruct (String.eqb_spec a b) as [E|E].
  - now apply localeCompare_zero.
  - now apply localeCompare_nonzero.
Qed.

Lemma printable_char_lower (c : ascii) :
  printable_char c = true -> printable_char (lower_ascii c) = true.
Proof.
  destruct c as [[] [] [] [] [] [] [] []]; cbn; intro H; first [exact H|reflexivity].
Qed.

Lemma printable_char_weighted (c : ascii) :
  printable_char c = true -> collation_ignorable c = false.
Proof.
  destruct c as [[] [] [] [] [] [] [] []]; cbn; intro H; first [reflexivity|discriminate].
Qed.

Lemma printable_toLowerCase (s : string) :
  printable s = true -> printable (toLowerCase s) = true.
Proof.
  induction s as [|c s IH]; cbn; [reflexivity|].
  rewrite !andb_true_iff. intros [Hc Hs]. split; [now apply printable_char_lower|auto].
Qed.

Lemma collation_key_printable (s : string) :
  printable s = true -> collation_key s = s.
Proof.
  induction s as [|c s IH]; cbn; [reflexivity|].
  rewrite andb_true_iff. intros [Hc Hs].
  now rewrite (printable_char_weighted c Hc), IH.
Qed.

(** On printable text the collation compares as string equality does. *)
Lemma localeCompare_collated_printable (a b : string) :
  printable a = true -> printable b = true ->
  (localeCompare_collated a b =? 0) = String.eqb a b.
Proof.
  intros Ha Hb. unfold localeCompare_collated.
  rewrite (collation_key_printable a Ha), (collation_key_printable b Hb).
  apply localeCompare_eqb.
Qed.

Lemma localeCompare_collated_same_key (a b : string) :
  collation_key a = collation_key b -> (localeCompare_collated a b =? 0) = true.
Proof.
  intro H. unfold localeCompare_collated. rewrite H. now apply localeCompare_zero.
Qed.

(** C6. Take a [canDelegate] call that reaches the no-op rule: the
    address and the delegatee pass validation, the four reads are
    fulfilled, the balance is not below MIN_COMP, and the two current
    delegates convert to text.  Then the call throws "delegatee can not
    be current delegatee" (403) if and only if the delegatee is not the
    sentinel "0x" and equals, after lowercasing both sides, the current
    voting delegate and the current proposition delegate; in every other
    case the call returns. *)
Theorem canDelegate_noop_iff
  (env : Env) (address delegatee : value) (a d : string)
  (bal cv cp : value) (u : unit) (voting proposition : string) (w : world) :
  toString address = Ok a ->
  toString (if is_undefined delegatee then VStr "0x" else delegatee) = Ok d ->
  (toLowerCase d = "0x" \/ isAddress env (toLowerCase d) = true) ->
  isAddress env (toLowerCase a) = true ->
  balanceOf env (toLowerCase a) = Fulfilled bal ->
  getDelegateeByType env (toLowerCase a) 0 = Fulfilled cv ->
  getDelegateeByType env (toLowerCase a) 1 = Fulfilled cp ->
  delegationAllowed env (toLowerCase a) = Fulfilled u ->
  js_lt (parseInt bal) (parseInt (MIN_COMP env)) = false ->
  toString cv = Ok voting ->
  toString cp = Ok proposition ->
  let run := canDelegate env address delegatee w in
  let same_as_both :=
    toLowerCase d <> "0x"
    /\ toLowerCase d = toLowerCase voting
    /\ toLowerCase d = toLowerCase proposition in
  (fst run = Throw (new_Error "delegatee can not be current delegatee" 403) <-> same_as_both)
  /\ (~ same_as_both -> fst run = Ok tt).
Proof.
  intros Ha Hd Hdv Hav Hbal Hcv Hcp Hdb Hmin Hv Hp run same. subst run same.
  unfold canDelegate, bind, throw_if. rewrite Hd. cbn [lift ret].
  rewrite Ha. cbn [lift ret is_undefined].
  assert (Hguard : negb (String.eqb (toLowerCase d) "0x")
                   && negb (isAddress env (toLowerCase d)) = false).
  { destruct Hdv as [E|E]; rewrite E; [reflexivity|].
    now rewrite andb_false_r. }
  rewrite Hguard, Hav. cbn [negb].
  unfold try_catch, bind, call. rewrite Hbal, Hcv, Hcp, Hdb. cbn [await_all4 ret].
  rewrite Hmin, Hv, Hp. cbn [lift ret].
  rewrite !localeCompare_eqb.
  destruct (String.eqb_spec (toLowerCase d) "0x") as [E0|E0]; cbn.
  - split; [split|reflexivity].
    + discriminate.
    + intros [H _]. contradiction.
  - destruct (String.eqb_spec (toLowerCase d) (toLowerCase voting)) as [E1|E1]; cbn.
    + destruct (String.eqb_spec (toLowerCase d) (toLowerCase proposition)) as [E2|E2]; cbn.
      * split; [split; auto|]. intros H. exfalso. apply H. auto.
      * split; [split|reflexivity]; [discriminate|]. intros (_ & _ & H). contradiction.
    + split; [split|reflexivity]; [discriminate|]. intros (_ & H & _). contradiction.
Qed.

Lemma canDelegate_noop_iff_witness :
  let env := sample_env (Ok alice) alice_checksummed alice_checksummed 150 VUndefined (Fulfilled tt) in
  let run := canDelegate env (VStr bob) (VStr alice) empty_world in
  let same_as_both :=
    toLowerCase alice <> "0x"
    /\ toLowerCase alice = toLowerCase alice_checksummed
    /\ toLowerCase alice = toLowerCase alice_checksummed in
  (fst run = Throw (new_Error "delegatee can not be current delegatee" 403) <-> same_as_both)
  /\ (~ same_as_both -> fst run = Ok tt).
Proof.
  apply (canDelegate_noop_iff
           (sample_env (Ok alice) alice_checksummed alice_checksummed 150 VUndefined (Fulfilled tt))
           (VStr bob) (VStr alice) bob alice
           (VStr "150") (VStr alice_checksummed) (VStr alice_checksummed) tt
           alice_checksummed alice_checksummed empty_world).
  - reflexivity.
  - reflexivity.
  - right. reflexivity.
  - reflexivity.
  - reflexivity.
  - reflexivity.
  - reflexivity.
  - reflexivity.
  - reflexivity.
  - reflexivity.
  - reflexivity.
Defined.

(* ================================================================== *)
(** ** What the checks leave untouched *)

Lemma keeps_ret {A} (a : A) : keeps_store (ret a).
Proof. intro w. repeat split. Qed.

Lemma keeps_throw {A} (e : error) : keeps_store (@throw A e).
Proof. intro w. repeat split. Qed.

Lemma keeps_lift {A} (r : result A) : keeps_store (lift r).
Proof. destruct r; [apply keeps_ret|apply keeps_throw]. Qed.

Lemma keeps_throw_if (c : bool) (e : error) : keeps_store (throw_if c e).
Proof. destruct c; [apply keeps_throw|apply keeps_ret]. Qed.

Lemma keeps_call {A} (q : query) (p : promise A) : keeps_store (call q p).
Proof. intro w. repeat split. Qed.

Lemma keeps_await {A} (p : promise A) : keeps_store (await p).
Proof. destruct p; [apply keeps_ret|apply keeps_throw]. Qed.

Lemma keeps_resolve (scope : list string) (x : string) : keeps_store (resolve scope x).
Proof.
  unfold resolve. destruct (existsb (String.eqb x) scope);
    [apply keeps_ret|apply keeps_throw].
Qed.

Lemma keeps_rethrow {A} (e : error) : keeps_store (@rethrow_or_blockchain A e).
Proof.
  unfold rethrow_or_blockchain. destruct (has_numeric_code e); apply keeps_throw.
Qed.

Lemma keeps_await_all4 {A B C D}
  (p1 : promise A) (p2 : promise B) (p3 : promise C) (p4 : promise D) :
  keeps_store (await_all4 p1 p2 p3 p4).
Proof.
  unfold await_all4.
  destruct p1, p2, p3, p4; try apply keeps_ret;
    match goal with
    | |- context [earliest ?l] => destruct (earliest l) as [[? ?]|]
    end; apply keeps_throw.
Qed.

Lemma keeps_bind {A B} (m : M A) (k : A -> M B) :
  keeps_store m -> (forall a, keeps_store (k a)) -> keeps_store (bind m k).
Proof.
  intros Hm Hk w. unfold bind.
  destruct (Hm w) as (H1 & H2 & H3).
  destruct (m w) as [[a|e] w1]; cbn in *.
  - destruct (Hk a w1) as (K1 & K2 & K3). repeat split; congruence.
  - auto.
Qed.

Lemma keeps_try_catch {A} (body : M A) (handler : error -> M A) :
  keeps_store body -> (forall e, keeps_store (handler e)) ->
  keeps_store (try_catch body handler).
Proof.
  intros Hm Hk w. unfold try_catch.
  destruct (Hm w) as (H1 & H2 & H3).
  destruct (body w) as [[a|e] w1]; cbn in *.
  - auto.
  - destruct (Hk e w1) as (K1 & K2 & K3). repeat split; congruence.
Qed.

Create HintDb store.
#[local] Hint Resolve keeps_ret keeps_throw keeps_lift keeps_throw_if keeps_call
  keeps_await keeps_resolve keeps_rethrow keeps_await_all4 : store.

Ltac keeps :=
  repeat first
    [ apply keeps_bind; [|intros]
    | apply keeps_try_catch; [|intros]
    | solve [auto with store]
    | match goal with
      | p : (_ * _)%type |- _ => destruct p
      | |- keeps_store (if ?c then _ else _) => destruct c
      end ].

Lemma canDelegate_keeps_store (env : Env) (address delegatee : value) :
  keeps_store (canDelegate env address delegatee).
Proof.
  unfold canDelegate. keeps.
Qed.

Lemma canVote_keeps_store (env : Env) (address proposalId : value) :
  keeps_store (canVote env address proposalId).
Proof.
  unfold canVote. keeps.
Qed.

(* ================================================================== *)
(** ** The action processors, step by step *)

Lemma delegate_unfold (env : Env) (address delegatee nonce expiry v r s : value) (w : world) :
  delegate env address delegatee nonce expiry v r s w =
    if includes_undefined [address; delegatee; nonce; expiry; v; r; s]
    then (Throw (new_Error "invalid input" 422), w)
    else
      match toString address with
      | Throw e => (Throw e, w)
      | Ok a =>
          match toString delegatee with
          | Throw e => (Throw e, w)
          | Ok d =>
              match recovered_signer env
                      (createDelegateBySigMessage (VStr (toLowerCase d)) nonce expiry)
                      v r s with
              | Throw _ => (Throw (new_Error "invalid signature" 422), w)
              | Ok signer =>
                  if String.eqb (toLowerCase signer) (toLowerCase a)
                  then delegate_validated env (toLowerCase a) (toLowerCase d)
                         nonce expiry v r s w
                  else (Throw (new_Error "given address does not match signer address" 422), w)
              end
          end
      end.
Proof.
  unfold delegate, bind, throw_if.
  destruct (includes_undefined [address; delegatee; nonce; expiry; v; r; s]);
    cbn [throw ret]; [reflexivity|].
  destruct (toString address) as [a|e]; cbn [lift ret throw]; [|reflexivity].
  destruct (toString delegatee) as [d|e]; cbn [lift ret throw]; [|reflexivity].
  rewrite recover_or_invalid_spec.
  destruct (recovered_signer env _ v r s) as [signer|e]; [|reflexivity].
  rewrite toLowerCase_idempotent, localeCompare_eqb.
  destruct (String.eqb (toLowerCase signer) (toLowerCase a)); reflexivity.
Qed.

(** The stages of [delegate_validated]: the eligibility check leaves the
    store alone, then the insert adds exactly the record, then the
    notification decides the outcome. *)
Lemma delegate_validated_cases (env : Env) (a d : string)
  (nonce expiry v r s : value) (w : world) :
  let run := delegate_validated env a d nonce expiry v r s w in
  let tx := delegate_record env a d nonce expiry v r s in
  (exists e, fst run = Throw e
             /\ delegateTxs (snd run) = delegateTxs w
             /\ voteTxs (snd run) = voteTxs w
             /\ requests (snd run) = requests w)
  \/ (exists w1,
         try_catch (canDelegate env (VStr a) (VStr d)) rethrow_or_blockchain w = (Ok tt, w1)
         /\ insertDelegateTx_settles env tx = Fulfilled tt
         /\ delegateTxs (snd run) = (delegateTxs w ++ [tx])%list
         /\ voteTxs (snd run) = voteTxs w
         /\ fst run =
              if negb (String.eqb (typeof (NOTIFICATION_HOOK env)) "undefined")
              then match axios_get env (display_string (NOTIFICATION_HOOK env)
                                        ++ "New dydx.vote delegation sig") with
                   | Fulfilled _ => Ok tt
                   | Rejected _ e => Throw e
                   end
              else Ok tt).
Proof.
  intros run tx. subst run tx. unfold delegate_validated, bind.
  pose proof (keeps_try_catch _ _ (canDelegate_keeps_store env (VStr a) (VStr d))
                (@keeps_rethrow unit) w) as (K1 & K2 & K3).
  destruct (try_catch (canDelegate env (VStr a) (VStr d)) rethrow_or_blockchain w)
    as [[[]|e] w1] eqn:E; cbn [fst snd] in *.
  - unfold insertDelegateTx.
    destruct (insertDelegateTx_settles env (delegate_record env a d nonce expiry v r s))
      as [[]|t e] eqn:Ei.
    + right. exists w1. split; [reflexivity|]. split; [reflexivity|].
      unfold notify_admin, axios_get_await.
      destruct (negb (String.eqb (typeof (NOTIFICATION_HOOK env)) "undefined")).
      * destruct (axios_get env _); cbn; rewrite K1, K2; auto.
      * cbn. rewrite K1, K2. auto.
    + left. exists e. cbn. auto.
  - left. exists e. cbn. auto.
Qed.

(** Before its eligibility check, [delegate] touches nothing. *)
Lemma delegate_cases (env : Env) (address delegatee nonce expiry v r s : value) (w : world) :
  let run := delegate env address delegatee nonce expiry v r s w in
  (exists e, fst run = Throw e
             /\ delegateTxs (snd run) = delegateTxs w
             /\ voteTxs (snd run) = voteTxs w
             /\ requests (snd run) = requests w)
  \/ (exists a d signer,
         includes_undefined [address; delegatee; nonce; expiry; v; r; s] = false
         /\ toString address = Ok a
         /\ toString delegatee = Ok d
         /\ recovered_signer env
              (createDelegateBySigMessage (VStr (toLowerCase d)) nonce expiry) v r s = Ok signer
         /\ toLowerCase signer = toLowerCase a
         /\ run = delegate_validated env (toLowerCase a) (toLowerCase d) nonce expiry v r s w).
Proof.
  intro run. subst run. rewrite delegate_unfold.
  destruct (includes_undefined [address; delegatee; nonce; expiry; v; r; s]) eqn:E0.
  { left. eexists. cbn. eauto. }
  destruct (toString address) as [a|e] eqn:Ea.
  2:{ left. eexists. cbn. eauto. }
  destruct (toString delegatee) as [d|e] eqn:Ed.
  2:{ left. eexists. cbn. eauto. }
  destruct (recovered_signer env _ v r s) as [signer|e] eqn:Es.
  2:{ left. eexists. cbn. eauto. }
  destruct (String.eqb_spec (toLowerCase signer) (toLowerCase a)) as [E|E].
  - right. exists a, d, signer. auto 10.
  - left. eexists. cbn. eauto.
Qed.

(* ================================================================== *)
(** ** Notification *)

Lemma app_one_neq {A} (l : list A) (x : A) : l = (l ++ [x])%list -> False.
Proof.
  intro H. apply (f_equal (@List.length A)) in H.
  rewrite List.length_app in H. cbn in H. lia.
Qed.

(** C3, as stated, fails: with a webhook configured and its request
    refused, a delegation whose record has been inserted is answered with
    the webhook's error. *)
Lemma delegate_notification_failure_surfaces :
  let env := sample_env (Ok alice) bob bob 150 (VStr "https://hook/?text=") hook_down in
  let run :=
    delegate env (VStr alice) (VStr carol) (VNum (Num 0)) (VNum (Num 0))
      sig_v sig_r sig_s empty_world in
  delegateTxs (snd run)
    = [delegate_record env alice carol (VNum (Num 0)) (VNum (Num 0)) sig_v sig_r sig_s]
  /\ requests (snd run) = ["https://hook/?text=New dydx.vote delegation sig"]
  /\ fst run = Throw (mkError "Error" "connect ECONNREFUSED" (VStr "ECONNREFUSED"))
  /\ ~ notification_failure_isolated.
Proof.
  cbv zeta. split; [reflexivity|]. split; [reflexivity|]. split; [reflexivity|].
  intros [_ H].
  specialize (H (sample_env (Ok alice) bob bob 150 (VStr "https://hook/?text=") hook_down)
                (VStr alice) (VStr carol) (VNum (Num 0)) (VNum (Num 0))
                sig_v sig_r sig_s empty_world
                (delegate_record
                   (sample_env (Ok alice) bob bob 150 (VStr "https://hook/?text=") hook_down)
                   alice carol (VNum (Num 0)) (VNum (Num 0)) sig_v sig_r sig_s)
                eq_refl).
  vm_compute in H. discriminate.
Qed.

(** C3, amended.  For every [delegate] call that has persisted its
    record, the outcome of the call is the outcome of the notification:
    it completes when NOTIFICATION_HOOK is undefined or the webhook
    request is fulfilled, and it throws the webhook's own error when the
    request is rejected.  The record stays in the collection either way. *)
Theorem delegate_notification_outcome
  (env : Env) (address delegatee nonce expiry v r s : value) (w : world) (tx : delegate_tx) :
  let run := delegate env address delegatee nonce expiry v r s w in
  delegateTxs (snd run) = (delegateTxs w ++ [tx])%list ->
  fst run =
    (if negb (String.eqb (typeof (NOTIFICATION_HOOK env)) "undefined")
     then match axios_get env (display_string (NOTIFICATION_HOOK env)
                               ++ "New dydx.vote delegation sig") with
          | Fulfilled _ => Ok tt
          | Rejected _ e => Throw e
          end
     else Ok tt)
  /\ In tx (delegateTxs (snd run)).
Proof.
  intros run Hins. split.
  2:{ rewrite Hins. apply in_or_app. right. now left. }
  destruct (delegate_cases env address delegatee nonce expiry v r s w)
    as [(e & _ & Hsame & _)|(a & d & signer & _ & _ & _ & _ & _ & Hrun)];
    fold run in Hsame || fold run in Hrun.
  - rewrite Hsame in Hins. now apply app_one_neq in Hins.
  - destruct (delegate_validated_cases env (toLowerCase a) (toLowerCase d) nonce expiry v r s w)
      as [(e & _ & Hsame & _)|(w1 & _ & _ & _ & _ & Hout)];
      rewrite <- Hrun in *.
    + rewrite Hsame in Hins. now apply app_one_neq in Hins.
    + exact Hout.
Qed.

Lemma delegate_notification_outcome_witness :
  let env := sample_env (Ok alice) bob bob 150 (VStr "https://hook/?text=") hook_down in
  let run :=
    delegate env (VStr alice_checksummed) (VStr carol) (VNum (Num 0)) (VNum (Num 0))
      sig_v sig_r sig_s empty_world in
  fst run =
    (if negb (String.eqb (typeof (NOTIFICATION_HOOK env)) "undefined")
     then match axios_get env (display_string (NOTIFICATION_HOOK env)
                               ++ "New dydx.vote delegation sig") with
          | Fulfilled _ => Ok tt
          | Rejected _ e => Throw e
          end
     else Ok tt)
  /\ In (delegate_record env alice carol (VNum (Num 0)) (VNum (Num 0)) sig_v sig_r sig_s)
        (delegateTxs (snd run)).
Proof.
  apply (delegate_notification_outcome
           (sample_env (Ok alice) bob bob 150 (VStr "https://hook/?text=") hook_down)
           (VStr alice_checksummed) (VStr carol) (VNum (Num 0)) (VNum (Num 0))
           sig_v sig_r sig_s empty_world).
  reflexivity.
Defined.

(* ================================================================== *)
(** ** Expiry *)



(* ================================================================== *)
(** ** Lowercase normalisation *)

Lemma canDelegate_lowercase_replies (env : Env) (address delegatee : value) (w : world) :
  canDelegate (lowercase_replies env) address delegatee w = canDelegate env address delegatee w.
Proof.
  unfold canDelegate, bind, throw_if, try_catch, call.
  cbn [isAddress balanceOf getDelegateeByType delegationAllowed MIN_COMP lowercase_replies].
  destruct (toString (if is_undefined delegatee then VStr "0x" else delegatee)) as [d|e];
    cbn [lift ret throw]; [|reflexivity].
  destruct (toString address) as [a|e]; cbn [lift ret throw is_undefined]; [|reflexivity].
  destruct (negb (String.eqb (toLowerCase d) "0x") && negb (isAddress env (toLowerCase d)));
    cbn [lift ret throw]; [reflexivity|].
  destruct (negb (isAddress env (toLowerCase a))); cbn [lift ret throw]; [reflexivity|].
  destruct (balanceOf env (toLowerCase a)) as [bal|t1 e1];
    destruct (getDelegateeByType env (toLowerCase a) 0) as [cv|t2 e2];
    destruct (getDelegateeByType env (toLowerCase a) 1) as [cp|t3 e3];
    destruct (delegationAllowed env (toLowerCase a)) as [u|t4 e4]; try reflexivity.
  cbn [promise_map await_all4 ret].
  destruct (js_lt (parseInt bal) (parseInt (MIN_COMP env))); cbn [throw ret]; [reflexivity|].
  destruct (String.eqb (toLowerCase d) "0x"); [reflexivity|].
  destruct cv; cbn [lower_value toString lift ret throw display_string]; try reflexivity;
    rewrite ?toLowerCase_idempotent;
    match goal with
    | |- context [negb ?c] => destruct c
    end; cbn [negb ret]; try reflexivity;
    destruct cp; cbn [lower_value toString lift ret throw display_string]; try reflexivity;
    now rewrite ?toLowerCase_idempotent.
Qed.

Lemma recovered_signer_lowercase_replies (env : Env) (data : typed_data) (v r s : value) :
  recovered_signer (lowercase_replies env) data v r s
  = result_map toLowerCase (recovered_signer env data v r s).
Proof.
  unfold recovered_signer. destruct (join_signature v r s); reflexivity.
Qed.

Lemma delegate_lowercase_replies (env : Env)
  (address delegatee nonce expiry v r s : value) (w : world) :
  delegate (lowercase_replies env) address delegatee nonce expiry v r s w
  = delegate env address delegatee nonce expiry v r s w.
Proof.
  rewrite !delegate_unfold.
  destruct (includes_undefined _); [reflexivity|].
  destruct (toString address) as [a|e]; [|reflexivity].
  destruct (toString delegatee) as [d|e]; [|reflexivity].
  rewrite recovered_signer_lowercase_replies.
  destruct (recovered_signer env _ v r s) as [signer|e]; cbn [result_map]; [|reflexivity].
  rewrite toLowerCase_idempotent.
  destruct (String.eqb (toLowerCase signer) (toLowerCase a)); [|reflexivity].
  unfold delegate_validated, bind, try_catch.
  rewrite canDelegate_lowercase_replies.
  reflexivity.
Qed.

Lemma vote_unfold (env : Env) (address proposalId support v r s : value) (w : world) :
  vote env address proposalId support v r s w =
    if includes_undefined [address; proposalId; support; v; r; s]
    then (Throw (new_Error "invalid input" 422), w)
    else
      match toString address with
      | Throw e => (Throw e, w)
      | Ok a =>
          match recovered_signer env (createVoteBySigMessage proposalId support) v r s with
          | Throw _ => (Throw (new_Error "invalid signature" 422), w)
          | Ok signer =>
              if String.eqb (toLowerCase a) (toLowerCase signer)
              then vote_validated env (toLowerCase a) proposalId support v r s w
              else (Throw (new_Error "invalid signature" 422), w)
          end
      end.
Proof.
  unfold vote, bind, throw_if.
  destruct (includes_undefined [address; proposalId; support; v; r; s]);
    cbn [throw ret]; [reflexivity|].
  destruct (toString address) as [a|e]; cbn [lift ret throw]; [|reflexivity].
  rewrite recover_or_invalid_spec.
  destruct (recovered_signer env _ v r s) as [signer|e]; [|reflexivity].
  rewrite localeCompare_eqb.
  destruct (String.eqb (toLowerCase a) (toLowerCase signer)); reflexivity.
Qed.

Lemma vote_lowercase_replies (env : Env)
  (address proposalId support v r s : value) (w : world) :
  vote (lowercase_replies env) address proposalId support v r s w
  = vote env address proposalId support v r s w.
Proof.
  rewrite !vote_unfold.
  destruct (includes_undefined _); [reflexivity|].
  destruct (toString address) as [a|e]; [|reflexivity].
  rewrite recovered_signer_lowercase_replies.
  destruct (recovered_signer env _ v r s) as [signer|e]; cbn [result_map]; [|reflexivity].
  rewrite toLowerCase_idempotent.
  destruct (String.eqb (toLowerCase a) (toLowerCase signer)); reflexivity.
Qed.

(** [vote] always stops at its eligibility check: the store and the
    outgoing requests are as before, and the call does not complete. *)
Lemma vote_never_persists (env : Env) (address proposalId support v r s : value) (w : world) :
  let run := vote env address proposalId support v r s w in
  voteTxs (snd run) = voteTxs w
  /\ delegateTxs (snd run) = delegateTxs w
  /\ requests (snd run) = requests w
  /\ fst run <> Ok tt.
Proof.
  intro run. subst run. rewrite vote_unfold.
  destruct (includes_undefined _); [cbn; repeat split; discriminate|].
  destruct (toString address) as [a|e]; [|cbn; repeat split; discriminate].
  destruct (recovered_signer env _ v r s) as [signer|e]; [|cbn; repeat split; discriminate].
  destruct (String.eqb (toLowerCase a) (toLowerCase signer)); [|cbn; repeat split; discriminate].
  unfold vote_validated, bind.
  pose proof (keeps_try_catch _ _ (canVote_keeps_store env (VStr (toLowerCase a)) proposalId)
                (@keeps_rethrow unit) w) as (K1 & K2 & K3).
  pose proof (canVote_never_returns env (VStr (toLowerCase a)) proposalId w) as Hn.
  unfold try_catch in *.
  destruct (canVote env (VStr (toLowerCase a)) proposalId w) as [[[]|e] w1]; cbn in Hn.
  - contradiction.
  - unfold rethrow_or_blockchain in *.
    destruct (has_numeric_code e); cbn in *; repeat split; auto; discriminate.
Qed.

Lemma canDelegate_returns_valid (env : Env) (a d : string) (w w1 : world) :
  try_catch (canDelegate env (VStr a) (VStr d)) rethrow_or_blockchain w = (Ok tt, w1) ->
  isAddress env (toLowerCase a) = true
  /\ (toLowerCase d = "0x" \/ isAddress env (toLowerCase d) = true).
Proof.
  unfold try_catch, canDelegate, bind, throw_if.
  cbn [is_undefined toString display_string lift ret].
  destruct (String.eqb_spec (toLowerCase d) "0x") as [E|E];
    destruct (isAddress env (toLowerCase d)) eqn:Ed;
    destruct (isAddress env (toLowerCase a)) eqn:Ea;
    cbn [negb andb throw ret]; intro H; auto;
    exfalso; unfold rethrow_or_blockchain in H;
    match type of H with
    | context [has_numeric_code ?e] => destruct (has_numeric_code e)
    end; discriminate.
Qed.

Lemma delegate_case_insensitive (env : Env) (a d : string)
  (nonce expiry v r s : value) (w : world) :
  delegate env (VStr a) (VStr d) nonce expiry v r s w
  = delegate env (VStr (toLowerCase a)) (VStr (toLowerCase d)) nonce expiry v r s w.
Proof.
  rewrite !delegate_unfold. cbn [toString display_string includes_undefined existsb is_undefined].
  now rewrite !toLowerCase_idempotent.
Qed.

Lemma vote_case_insensitive (env : Env) (a : string)
  (proposalId support v r s : value) (w : world) :
  vote env (VStr a) proposalId support v r s w
  = vote env (VStr (toLowerCase a)) proposalId support v r s w.
Proof.
  rewrite !vote_unfold. cbn [toString display_string includes_undefined existsb is_undefined].
  now rewrite !toLowerCase_idempotent.
Qed.

Lemma canDelegate_case_insensitive (env : Env) (a d : string) (w : world) :
  canDelegate env (VStr a) (VStr d) w
  = canDelegate env (VStr (toLowerCase a)) (VStr (toLowerCase d)) w.
Proof.
  unfold canDelegate, bind. cbn [toString display_string is_undefined lift ret].
  now rewrite !toLowerCase_idempotent.
Qed.

Lemma canVote_case_insensitive (env : Env) (a : string) (proposalId : value) (w : world) :
  canVote env (VStr a) proposalId w = canVote env (VStr (toLowerCase a)) proposalId w.
Proof.
  unfold canVote, bind. cbn [toString display_string typeof lift ret].
  now rewrite !toLowerCase_idempotent.
Qed.

Lemma whitelist_lowercase : Forall (fun x => toLowerCase x = x) whitelist.
Proof.
  repeat constructor.
Qed.

(** C8. Every record that a [delegate] call adds to the collection has a
    [from] that is its own lowercase form and that isAddress accepts, and
    a [delegatee] that is its own lowercase form and is "0x" or accepted
    by isAddress; every record a [vote] call adds has such a [from].
    The comparisons are made on lowercased values: [vote], [delegate],
    [canDelegate] and [canVote] give the same result on an address (and
    delegatee) as on its lowercase form, and the same result when the
    recovered signer and the current delegates come back already
    lowercased; the whitelist that [isWhitelisted] searches holds
    lowercase entries only, so that membership of a lowercased address is
    membership up to case. *)
Theorem addresses_normalized (env : Env) :
  (forall address delegatee nonce expiry v r s w tx,
      In tx (delegateTxs (snd (delegate env address delegatee nonce expiry v r s w))) ->
      In tx (delegateTxs w)
      \/ (dt_from tx = toLowerCase (dt_from tx)
          /\ isAddress env (dt_from tx) = true
          /\ dt_delegatee tx = toLowerCase (dt_delegatee tx)
          /\ (dt_delegatee tx = "0x" \/ isAddress env (dt_delegatee tx) = true)))
  /\ (forall address proposalId support v r s w tx,
      In tx (voteTxs (snd (vote env address proposalId support v r s w))) ->
      In tx (voteTxs w)
      \/ (vt_from tx = toLowerCase (vt_from tx) /\ isAddress env (vt_from tx) = true))
  /\ (forall a d nonce expiry v r s w,
      delegate env (VStr a) (VStr d) nonce expiry v r s w
      = delegate env (VStr (toLowerCase a)) (VStr (toLowerCase d)) nonce expiry v r s w)
  /\ (forall a proposalId support v r s w,
      vote env (VStr a) proposalId support v r s w
      = vote env (VStr (toLowerCase a)) proposalId support v r s w)
  /\ (forall a d w,
      canDelegate env (VStr a) (VStr d) w
      = canDelegate env (VStr (toLowerCase a)) (VStr (toLowerCase d)) w)
  /\ (forall a proposalId w,
      canVote env (VStr a) proposalId w = canVote env (VStr (toLowerCase a)) proposalId w)
  /\ (forall address delegatee nonce expiry v r s w,
      delegate (lowercase_replies env) address delegatee nonce expiry v r s w
      = delegate env address delegatee nonce expiry v r s w)
  /\ (forall address proposalId support v r s w,
      vote (lowercase_replies env) address proposalId support v r s w
      = vote env address proposalId support v r s w)
  /\ (forall address delegatee w,
      canDelegate (lowercase_replies env) address delegatee w
      = canDelegate env address delegatee w)
  /\ Forall (fun x => toLowerCase x = x) whitelist
  /\ (forall a,
      isWhitelisted (toLowerCase a)
      = existsb (fun x => String.eqb (toLowerCase a) (toLowerCase x)) whitelist).
Proof.
  split; [|split; [|repeat split]].
  - intros address delegatee nonce expiry v r s w tx Hin.
    destruct (delegate_cases env address delegatee nonce expiry v r s w)
      as [(e & _ & Hsame & _)|(a & d & signer & _ & _ & _ & _ & _ & Hrun)].
    + left. now rewrite <- Hsame.
    + rewrite Hrun in Hin.
      destruct (delegate_validated_cases env (toLowerCase a) (toLowerCase d)
                  nonce expiry v r s w)
        as [(e & _ & Hsame & _)|(w1 & Hok & _ & Hadd & _)].
      * left. now rewrite <- Hsame.
      * rewrite Hadd in Hin. apply in_app_or in Hin. destruct Hin as [Hin|[<-|[]]]; [now left|].
        right. cbn [dt_from dt_delegatee delegate_record].
        apply canDelegate_returns_valid in Hok.
        rewrite !toLowerCase_idempotent in *. tauto.
  - intros address proposalId support v r s w tx Hin.
    destruct (vote_never_persists env address proposalId support v r s w) as (Hsame & _).
    left. now rewrite <- Hsame.
  - apply delegate_case_insensitive.
  - apply vote_case_insensitive.
  - apply canDelegate_case_insensitive.
  - apply canVote_case_insensitive.
  - apply delegate_lowercase_replies.
  - apply vote_lowercase_replies.
  - apply canDelegate_lowercase_replies.
  - apply whitelist_lowercase.
Qed.

Lemma addresses_normalized_witness :
  let env := sample_env (Ok alice_checksummed) bob bob 150 VUndefined (Fulfilled tt) in
  let tx := delegate_record env alice carol (VNum (Num 0)) (VNum (Num 0)) sig_v sig_r sig_s in
  In tx (delegateTxs empty_world)
  \/ (dt_from tx = toLowerCase (dt_from tx)
      /\ isAddress env (dt_from tx) = true
      /\ dt_delegatee tx = toLowerCase (dt_delegatee tx)
      /\ (dt_delegatee tx = "0x" \/ isAddress env (dt_delegatee tx) = true)).
Proof.
  apply (proj1 (addresses_normalized
                  (sample_env (Ok alice_checksummed) bob bob 150 VUndefined (Fulfilled tt)))
           (VStr alice_checksummed) (VStr carol) (VNum (Num 0)) (VNum (Num 0))
           sig_v sig_r sig_s empty_world).
  vm_compute. left. reflexivity.
Defined.

(* ================================================================== *)
(** ** [canDelegate], stage by stage *)

Lemma rethrow_translated {A} (e : error) (w : world) :
  @rethrow_or_blockchain A e w = (Throw (translated e), w).
Proof.
  unfold rethrow_or_blockchain, translated. destruct (has_numeric_code e); reflexivity.
Qed.

Lemma after_four_reads (w : world) (a : string) :
  mkWorld ((((queries w ++ [Q_balanceOf a]) ++ [Q_getDelegateeByType a 0])
             ++ [Q_getDelegateeByType a 1]) ++ [Q_delegationAllowed a])
          (voteTxs w) (delegateTxs w) (requests w)
  = after_reads w (delegation_reads a).
Proof.
  unfold after_reads, delegation_reads. now rewrite <- !List.app_assoc.
Qed.

Lemma canDelegate_unfold (env : Env) (address delegatee : value) (w : world) :
  canDelegate env address delegatee w =
    match toString (if is_undefined delegatee then VStr "0x" else delegatee) with
    | Throw e => (Throw e, w)
    | Ok d =>
        match toString address with
        | Throw e => (Throw e, w)
        | Ok a =>
            if negb (String.eqb (toLowerCase d) "0x") && negb (isAddress env (toLowerCase d))
            then (Throw (new_Error "invalid delegatee address" 422), w)
            else if negb (isAddress env (toLowerCase a))
            then (Throw (new_Error "invalid from address" 422), w)
            else
              let w4 := after_reads w (delegation_reads (toLowerCase a)) in
              match earliest (delegation_rejections env (toLowerCase a)) with
              | Some (_, e) => (Throw (translated e), w4)
              | None =>
                  match balanceOf env (toLowerCase a),
                        getDelegateeByType env (toLowerCase a) 0,
                        getDelegateeByType env (toLowerCase a) 1 with
                  | Fulfilled bal, Fulfilled cv, Fulfilled cp =>
                      canDelegate_rules env (toLowerCase d) bal cv cp w4
                  | _, _, _ => (Throw blockchain_error, w4)
                  end
              end
        end
    end.
Proof.
  unfold canDelegate, bind, throw_if.
  destruct (toString (if is_undefined delegatee then VStr "0x" else delegatee)) as [d|e];
    cbn [lift ret throw]; [|reflexivity].
  destruct (toString address) as [a|e]; cbn [lift ret throw is_undefined]; [|reflexivity].
  destruct (negb (String.eqb (toLowerCase d) "0x") && negb (isAddress env (toLowerCase d)));
    cbn [lift ret throw]; [reflexivity|].
  destruct (negb (isAddress env (toLowerCase a))); cbn [lift ret throw]; [reflexivity|].
  unfold try_catch, bind, call. cbn [queries voteTxs delegateTxs requests].
  rewrite after_four_reads. unfold delegation_rejections.
  destruct (balanceOf env (toLowerCase a)) as [bal|t1 e1];
    destruct (getDelegateeByType env (toLowerCase a) 0) as [cv|t2 e2];
    destruct (getDelegateeByType env (toLowerCase a) 1) as [cp|t3 e3];
    destruct (delegationAllowed env (toLowerCase a)) as [u|t4 e4];
    cbn [await_all4 rejection earliest ret throw].
  1: reflexivity.
  all: repeat match goal with
       | |- context [if (?x <? ?y)%nat then _ else _] => destruct (x <? y)%nat
       end; cbn [throw]; rewrite rethrow_translated; reflexivity.
Qed.

Lemma canDelegate_rules_pure (env : Env) (d : string) (bal cv cp : value) (w : world) :
  snd (canDelegate_rules env d bal cv cp w) = w.
Proof.
  unfold canDelegate_rules, bind, throw_if.
  destruct (js_lt (parseInt bal) (parseInt (MIN_COMP env))); cbn [throw ret snd]; [reflexivity|].
  destruct (String.eqb d "0x"); cbn [ret throw snd]; [reflexivity|].
  destruct (toString cv) as [voting|e]; cbn [lift ret throw snd]; [|reflexivity].
  destruct (negb (localeCompare d (toLowerCase voting) =? 0)); cbn [ret throw snd]; [reflexivity|].
  destruct (toString cp) as [proposition|e]; cbn [lift ret throw snd]; [|reflexivity].
  destruct (localeCompare d (toLowerCase proposition) =? 0); reflexivity.
Qed.

(** X1. Validation order of [canDelegate], lines 143-157: with an address
    and a delegatee that convert to text, a delegatee other than "0x"
    that isAddress rejects is answered "invalid delegatee address" (422),
    whatever the source address is; with an acceptable delegatee, a
    source address that isAddress rejects is answered "invalid from
    address" (422).  In both cases no read has been issued. *)
Theorem canDelegate_validation_order
  (env : Env) (address delegatee : value) (a d : string) (w : world) :
  toString address = Ok a ->
  toString (if is_undefined delegatee then VStr "0x" else delegatee) = Ok d ->
  (toLowerCase d <> "0x" -> isAddress env (toLowerCase d) = false ->
   canDelegate env address delegatee w
     = (Throw (new_Error "invalid delegatee address" 422), w))
  /\ (toLowerCase d = "0x" \/ isAddress env (toLowerCase d) = true ->
      isAddress env (toLowerCase a) = false ->
      canDelegate env address delegatee w
        = (Throw (new_Error "invalid from address" 422), w)).
Proof.
  intros Ha Hd. rewrite canDelegate_unfold, Ha, Hd. split.
  - intros Hne Hbad. rewrite Hbad.
    destruct (String.eqb_spec (toLowerCase d) "0x") as [E|E]; [contradiction|reflexivity].
  - intros Hok Hbad. rewrite Hbad.
    destruct Hok as [E|E]; rewrite E; cbn [negb andb]; [reflexivity|].
    now rewrite andb_false_r.
Qed.

Lemma canDelegate_validation_order_witness :
  canDelegate (sample_env (Ok alice) bob bob 150 VUndefined (Fulfilled tt))
    (VStr "not an address") (VStr "0xzz") empty_world
  = (Throw (new_Error "invalid delegatee address" 422), empty_world).
Proof.
  apply (proj1 (canDelegate_validation_order
                  (sample_env (Ok alice) bob bob 150 VUndefined (Fulfilled tt))
                  (VStr "not an address") (VStr "0xzz") "not an address" "0xzz" empty_world
                  eq_refl eq_refl)).
  - discriminate.
  - reflexivity.
Defined.

(** X2. Error translation of [canDelegate], lines 163-186: once the
    inputs are valid, the four reads are all issued; if any of them is
    rejected, the call throws the rejection that settles first when that
    error carries a numeric code, and "error fetching data from
    blockchain" (500) otherwise.  Either way the thrown error carries a
    numeric code. *)
Theorem canDelegate_failed_read
  (env : Env) (address delegatee : value) (a d : string) (t : nat) (e : error) (w : world) :
  toString address = Ok a ->
  toString (if is_undefined delegatee then VStr "0x" else delegatee) = Ok d ->
  (toLowerCase d = "0x" \/ isAddress env (toLowerCase d) = true) ->
  isAddress env (toLowerCase a) = true ->
  earliest (delegation_rejections env (toLowerCase a)) = Some (t, e) ->
  canDelegate env address delegatee w
    = (Throw (if has_numeric_code e then e
              else new_Error "error fetching data from blockchain" 500),
       after_reads w (delegation_reads (toLowerCase a)))
  /\ has_numeric_code (if has_numeric_code e then e
                       else new_Error "error fetching data from blockchain" 500) = true.
Proof.
  intros Ha Hd Hdv Hav He. rewrite canDelegate_unfold, Ha, Hd, Hav.
  assert (Hguard : negb (String.eqb (toLowerCase d) "0x")
                   && negb (isAddress env (toLowerCase d)) = false).
  { destruct Hdv as [E|E]; rewrite E; [reflexivity|]. now rewrite andb_false_r. }
  rewrite Hguard. cbn [negb]. cbv zeta. rewrite He. split; [reflexivity|].
  destruct (has_numeric_code e) eqn:E; [exact E|reflexivity].
Qed.

Lemma canDelegate_failed_read_witness :
  let pending := new_Error "pending delegation exists" 403 in
  let env :=
    mkEnv lowercase_isAddress (fun _ _ => Ok alice)
      (fun _ => Rejected 5 (mkError "Error" "timeout" VUndefined))
      (fun _ _ => Fulfilled (VStr bob))
      (fun _ => Fulfilled sample_proposal)
      (fun _ _ => Fulfilled (mkReceipt (VStr "0")))
      (Fulfilled 150)
      (fun _ _ _ => Fulfilled (VStr "150"))
      (fun _ => Rejected 2 pending)
      (fun _ _ => Fulfilled tt)
      (fun _ => Fulfilled tt) (fun _ => Fulfilled tt) (fun _ => Fulfilled tt)
      (VStr "100") VUndefined 0 in
  canDelegate env (VStr alice_checksummed) VUndefined empty_world
    = (Throw (if has_numeric_code pending then pending
              else new_Error "error fetching data from blockchain" 500),
       after_reads empty_world (delegation_reads (toLowerCase alice_checksummed)))
  /\ has_numeric_code (if has_numeric_code pending then pending
                       else new_Error "error fetching data from blockchain" 500) = true.
Proof.
  apply (canDelegate_failed_read
           (mkEnv lowercase_isAddress (fun _ _ => Ok alice)
              (fun _ => Rejected 5 (mkError "Error" "timeout" VUndefined))
              (fun _ _ => Fulfilled (VStr bob))
              (fun _ => Fulfilled sample_proposal)
              (fun _ _ => Fulfilled (mkReceipt (VStr "0")))
              (Fulfilled 150)
              (fun _ _ _ => Fulfilled (VStr "150"))
              (fun _ => Rejected 2 (new_Error "pending delegation exists" 403))
              (fun _ _ => Fulfilled tt)
              (fun _ => Fulfilled tt) (fun _ => Fulfilled tt) (fun _ => Fulfilled tt)
              (VStr "100") VUndefined 0)
           (VStr alice_checksummed) VUndefined alice_checksummed "0x" 2
           (new_Error "pending delegation exists" 403) empty_world).
  - reflexivity.
  - reflexivity.
  - left. reflexivity.
  - reflexivity.
  - reflexivity.
Defined.

Lemma earliest_all_fulfilled (env : Env) (a : string) (bal cv cp : value) (u : unit) :
  balanceOf env a = Fulfilled bal ->
  getDelegateeByType env a 0 = Fulfilled cv ->
  getDelegateeByType env a 1 = Fulfilled cp ->
  delegationAllowed env a = Fulfilled u ->
  earliest (delegation_rejections env a) = None.
Proof.
  intros H1 H2 H3 H4. unfold delegation_rejections. now rewrite H1, H2, H3, H4.
Qed.

(** [canDelegate] with valid inputs and four fulfilled reads is its rules
    on what the reads returned. *)
Lemma canDelegate_fetched (env : Env) (address delegatee : value) (a d : string)
  (bal cv cp : value) (u : unit) (w : world) :
  toString address = Ok a ->
  toString (if is_undefined delegatee then VStr "0x" else delegatee) = Ok d ->
  (toLowerCase d = "0x" \/ isAddress env (toLowerCase d) = true) ->
  isAddress env (toLowerCase a) = true ->
  balanceOf env (toLowerCase a) = Fulfilled bal ->
  getDelegateeByType env (toLowerCase a) 0 = Fulfilled cv ->
  getDelegateeByType env (toLowerCase a) 1 = Fulfilled cp ->
  delegationAllowed env (toLowerCase a) = Fulfilled u ->
  canDelegate env address delegatee w
    = canDelegate_rules env (toLowerCase d) bal cv cp
        (after_reads w (delegation_reads (toLowerCase a))).
Proof.
  intros Ha Hd Hdv Hav H1 H2 H3 H4. rewrite canDelegate_unfold, Ha, Hd, Hav.
  assert (Hguard : negb (String.eqb (toLowerCase d) "0x")
                   && negb (isAddress env (toLowerCase d)) = false).
  { destruct Hdv as [E|E]; rewrite E; [reflexivity|]. now rewrite andb_false_r. }
  rewrite Hguard. cbn [negb]. cbv zeta.
  rewrite (earliest_all_fulfilled env _ bal cv cp u H1 H2 H3 H4), H1, H2, H3.
  reflexivity.
Qed.

(** X3. The balance rule of [canDelegate], lines 188-193, comes before
    the no-op rule: with valid inputs and four fulfilled reads, a balance
    and a MIN_COMP that parse to integers a double holds exactly (at most
    2^53 in absolute value), the balance being the smaller, are answered
    "dYdX balance too low" (403), whatever the delegatee and the current
    delegates are. *)
Theorem canDelegate_balance_too_low
  (env : Env) (address delegatee : value) (a d : string)
  (bal cv cp : value) (u : unit) (balance threshold : Z) (w : world) :
  toString address = Ok a ->
  toString (if is_undefined delegatee then VStr "0x" else delegatee) = Ok d ->
  (toLowerCase d = "0x" \/ isAddress env (toLowerCase d) = true) ->
  isAddress env (toLowerCase a) = true ->
  balanceOf env (toLowerCase a) = Fulfilled bal ->
  getDelegateeByType env (toLowerCase a) 0 = Fulfilled cv ->
  getDelegateeByType env (toLowerCase a) 1 = Fulfilled cp ->
  delegationAllowed env (toLowerCase a) = Fulfilled u ->
  parseInt bal = Num balance ->
  parseInt (MIN_COMP env) = Num threshold ->
  safe_integer balance ->
  safe_integer threshold ->
  balance < threshold ->
  canDelegate env address delegatee w
    = (Throw (new_Error "dYdX balance too low" 403),
       after_reads w (delegation_reads (toLowerCase a))).
Proof.
  intros Ha Hd Hdv Hav H1 H2 H3 H4 Hb Hm _ _ Hlow.
  rewrite (canDelegate_fetched env address delegatee a d bal cv cp u w) by assumption.
  unfold canDelegate_rules, bind, throw_if. rewrite Hb, Hm. cbn [js_lt].
  now rewrite (proj2 (Z.ltb_lt balance threshold) Hlow).
Qed.

Lemma canDelegate_balance_too_low_witness :
  let env :=
    mkEnv lowercase_isAddress (fun _ _ => Ok alice)
      (fun _ => Fulfilled (VStr "99"))
      (fun _ _ => Fulfilled (VStr bob))
      (fun _ => Fulfilled sample_proposal)
      (fun _ _ => Fulfilled (mkReceipt (VStr "0")))
      (Fulfilled 150)
      (fun _ _ _ => Fulfilled (VStr "150"))
      (fun _ => Fulfilled tt)
      (fun _ _ => Fulfilled tt)
      (fun _ => Fulfilled tt) (fun _ => Fulfilled tt) (fun _ => Fulfilled tt)
      (VStr "100") VUndefined 0 in
  canDelegate env (VStr alice) (VStr bob) empty_world
    = (Throw (new_Error "dYdX balance too low" 403),
       after_reads empty_world (delegation_reads (toLowerCase alice))).
Proof.
  apply (canDelegate_balance_too_low
           (mkEnv lowercase_isAddress (fun _ _ => Ok alice)
              (fun _ => Fulfilled (VStr "99"))
              (fun _ _ => Fulfilled (VStr bob))
              (fun _ => Fulfilled sample_proposal)
              (fun _ _ => Fulfilled (mkReceipt (VStr "0")))
              (Fulfilled 150)
              (fun _ _ _ => Fulfilled (VStr "150"))
              (fun _ => Fulfilled tt)
              (fun _ _ => Fulfilled tt)
              (fun _ => Fulfilled tt) (fun _ => Fulfilled tt) (fun _ => Fulfilled tt)
              (VStr "100") VUndefined 0)
           (VStr alice) (VStr bob) alice bob (VStr "99") (VStr bob) (VStr bob) tt
           99 100 empty_world).
  - reflexivity.
  - reflexivity.
  - right. reflexivity.
  - reflexivity.
  - reflexivity.
  - reflexivity.
  - reflexivity.
  - reflexivity.
  - reflexivity.
  - reflexivity.
  - unfold safe_integer. cbn. lia.
  - unfold safe_integer. cbn. lia.
  - lia.
Defined.

(** X4. The balance rule needs both sides to parse: when
    [parseInt(process.env.MIN_COMP)] or [parseInt(dydxBalance)] is NaN
    (MIN_COMP unset, for instance), the comparison is false and no
    balance is too low.  With valid inputs, four fulfilled reads and no
    delegatee given, [canDelegate] then returns. *)
Theorem canDelegate_no_threshold
  (env : Env) (address : value) (a : string)
  (bal cv cp : value) (u : unit) (w : world) :
  toString address = Ok a ->
  isAddress env (toLowerCase a) = true ->
  balanceOf env (toLowerCase a) = Fulfilled bal ->
  getDelegateeByType env (toLowerCase a) 0 = Fulfilled cv ->
  getDelegateeByType env (toLowerCase a) 1 = Fulfilled cp ->
  delegationAllowed env (toLowerCase a) = Fulfilled u ->
  parseInt (MIN_COMP env) = NaN \/ parseInt bal = NaN ->
  canDelegate env address VUndefined w
    = (Ok tt, after_reads w (delegation_reads (toLowerCase a))).
Proof.
  intros Ha Hav H1 H2 H3 H4 Hnan.
  rewrite (canDelegate_fetched env address VUndefined a "0x" bal cv cp u w);
    try assumption; try reflexivity; [|now left].
  unfold canDelegate_rules, bind, throw_if.
  assert (Hlt : js_lt (parseInt bal) (parseInt (MIN_COMP env)) = false).
  { destruct Hnan as [E|E]; rewrite E; [destruct (parseInt bal)|]; reflexivity. }
  now rewrite Hlt.
Qed.

Lemma canDelegate_no_threshold_witness :
  let env :=
    mkEnv lowercase_isAddress (fun _ _ => Ok alice)
      (fun _ => Fulfilled (VStr "0"))
      (fun _ _ => Fulfilled (VStr bob))
      (fun _ => Fulfilled sample_proposal)
      (fun _ _ => Fulfilled (mkReceipt (VStr "0")))
      (Fulfilled 150)
      (fun _ _ _ => Fulfilled (VStr "150"))
      (fun _ => Fulfilled tt)
      (fun _ _ => Fulfilled tt)
      (fun _ => Fulfilled tt) (fun _ => Fulfilled tt) (fun _ => Fulfilled tt)
      VUndefined VUndefined 0 in
  canDelegate env (VStr alice) VUndefined empty_world
    = (Ok tt, after_reads empty_world (delegation_reads (toLowerCase alice))).
Proof.
  apply (canDelegate_no_threshold
           (mkEnv lowercase_isAddress (fun _ _ => Ok alice)
              (fun _ => Fulfilled (VStr "0"))
              (fun _ _ => Fulfilled (VStr bob))
              (fun _ => Fulfilled sample_proposal)
              (fun _ _ => Fulfilled (mkReceipt (VStr "0")))
              (Fulfilled 150)
              (fun _ _ _ => Fulfilled (VStr "150"))
              (fun _ => Fulfilled tt)
              (fun _ _ => Fulfilled tt)
              (fun _ => Fulfilled tt) (fun _ => Fulfilled tt) (fun _ => Fulfilled tt)
              VUndefined VUndefined 0)
           (VStr alice) alice (VStr "0") (VStr bob) (VStr bob) tt empty_world).
  - reflexivity.
  - reflexivity.
  - reflexivity.
  - reflexivity.
  - reflexivity.
  - reflexivity.
  - left. reflexivity.
Defined.

(** X5. [canDelegate] only reads, and its reads are all or nothing: it
    never changes the two collections nor sends a request, and it has
    issued either no read at all or exactly the four reads of the
    lowercased source address, in the order balance, voting delegate,
    proposition delegate, database flag. *)
Theorem canDelegate_reads_all_or_nothing
  (env : Env) (address delegatee : value) (w : world) :
  let w' := snd (canDelegate env address delegatee w) in
  voteTxs w' = voteTxs w
  /\ delegateTxs w' = delegateTxs w
  /\ requests w' = requests w
  /\ (w' = w
      \/ exists a, toString address = Ok a
                   /\ w' = after_reads w (delegation_reads (toLowerCase a))).
Proof.
  intro w'. subst w'.
  destruct (canDelegate_keeps_store env address delegatee w) as (K1 & K2 & K3).
  repeat (split; [assumption|]).
  rewrite canDelegate_unfold.
  destruct (toString (if is_undefined delegatee then VStr "0x" else delegatee)) as [d|e];
    [|now left].
  destruct (toString address) as [a|e]; [|now left].
  destruct (negb (String.eqb (toLowerCase d) "0x") && negb (isAddress env (toLowerCase d)));
    [now left|].
  destruct (negb (isAddress env (toLowerCase a))); [now left|].
  right. exists a. split; [reflexivity|]. cbv zeta.
  destruct (earliest (delegation_rejections env (toLowerCase a))) as [[t e]|]; [reflexivity|].
  destruct (balanceOf env (toLowerCase a)); [|reflexivity].
  destruct (getDelegateeByType env (toLowerCase a) 0); [|reflexivity].
  destruct (getDelegateeByType env (toLowerCase a) 1); [|reflexivity].
  apply canDelegate_rules_pure.
Qed.

(* ================================================================== *)
(** ** [canVote], its inputs and its rules *)

(** X6. Input validation of [canVote], lines 220-233: an undefined
    address or proposalId is answered "invalid input" (422); a defined
    address whose lowercased text isAddress rejects is answered "invalid
    from address" (422); a null address (typeof "object") passes the
    first check and makes [address.toString()] throw a TypeError that
    carries no code.  No read is issued in any of these cases. *)
Theorem canVote_input_validation (env : Env) (address proposalId : value) (w : world) :
  (address = VUndefined \/ proposalId = VUndefined ->
   canVote env address proposalId w = (Throw (new_Error "invalid input" 422), w))
  /\ (forall s,
      address <> VUndefined -> proposalId <> VUndefined ->
      toString address = Ok s ->
      isAddress env (toLowerCase s) = false ->
      canVote env address proposalId w = (Throw (new_Error "invalid from address" 422), w))
  /\ (address = VNull -> proposalId <> VUndefined ->
      canVote env address proposalId w
        = (Throw (TypeError "Cannot read properties of null (reading 'toString')"), w)
      /\ has_numeric_code
           (TypeError "Cannot read properties of null (reading 'toString')") = false).
Proof.
  unfold canVote, bind, throw_if. rewrite !typeof_undefined. split; [|split].
  - intros [-> | ->]; cbn [is_undefined orb]; [reflexivity|].
    now rewrite orb_true_r.
  - intros s Ha Hp Hs Hbad.
    rewrite (is_undefined_false _ Ha), (is_undefined_false _ Hp).
    cbn [orb ret]. rewrite Hs. cbn [lift ret]. now rewrite Hbad.
  - intros -> Hp. rewrite (is_undefined_false _ Hp). split; reflexivity.
Qed.

Lemma canVote_input_validation_witness :
  canVote (sample_env (Ok alice) bob bob 150 VUndefined (Fulfilled tt))
    (VStr alice) VUndefined empty_world
  = (Throw (new_Error "invalid input" 422), empty_world).
Proof.
  apply (proj1 (canVote_input_validation
                  (sample_env (Ok alice) bob bob 150 VUndefined (Fulfilled tt))
                  (VStr alice) VUndefined empty_world)).
  right. reflexivity.
Defined.

(** X7. The answer of [canVote] does not depend on the chain or on the
    database: two environments whose isAddress agree give the same
    result and leave the same world, whatever their proposals, receipts,
    block heights, voting powers and database flags are; and the call
    issues at most one read, the proposal read. *)
Theorem canVote_ignores_chain_state
  (env1 env2 : Env) (address proposalId : value) (w : world) :
  (forall s, isAddress env1 s = isAddress env2 s) ->
  canVote env1 address proposalId w = canVote env2 address proposalId w
  /\ (snd (canVote env1 address proposalId w) = w
      \/ snd (canVote env1 address proposalId w)
         = after_reads w [Q_getProposalById proposalId]).
Proof.
  intro Hsame. unfold canVote, bind, throw_if. rewrite !typeof_undefined.
  destruct (is_undefined address || is_undefined proposalId);
    cbn [throw ret snd]; [split; [reflexivity|now left]|].
  destruct (toString address) as [s|e]; cbn [lift ret throw snd];
    [|split; [reflexivity|now left]].
  rewrite <- Hsame.
  destruct (isAddress env1 (toLowerCase s)); cbn [negb throw ret snd];
    [|split; [reflexivity|now left]].
  unfold try_catch, bind, call, resolve.
  rewrite governorBravo_unbound. split; [reflexivity|now right].
Qed.

Lemma canVote_ignores_chain_state_witness :
  let env1 := sample_env (Ok alice) bob bob 150 VUndefined (Fulfilled tt) in
  let env2 := sample_env (Throw blockchain_error) carol alice 9000 VNull hook_down in
  canVote env1 (VStr alice) (VNum (Num 7)) empty_world
    = canVote env2 (VStr alice) (VNum (Num 7)) empty_world
  /\ (snd (canVote env1 (VStr alice) (VNum (Num 7)) empty_world) = empty_world
      \/ snd (canVote env1 (VStr alice) (VNum (Num 7)) empty_world)
         = after_reads empty_world [Q_getProposalById (VNum (Num 7))]).
Proof.
  apply (canVote_ignores_chain_state
           (sample_env (Ok alice) bob bob 150 VUndefined (Fulfilled tt))
           (sample_env (Throw blockchain_error) carol alice 9000 VNull hook_down)
           (VStr alice) (VNum (Num 7)) empty_world).
  intro s. reflexivity.
Defined.

(** X8. The rules of lines 272-300 accept exactly the votes they are
    written for.  Take block bounds, a current block, a voting power, a
    threshold and a receipt that are integers a double holds exactly (at
    most 2^53 in absolute value, endBlock - 2400 included).  Then
    [canVote_rules] returns if and only if the current block is strictly
    between startBlock and endBlock - 2400, the proposal is not canceled,
    the voting power is at least MIN_COMP or the address is whitelisted,
    and the receipt records no voting power.  The rules leave the world
    untouched. *)
Theorem canVote_rules_accept_iff
  (env : Env) (address : string) (proposal : proposal_data) (receipt : vote_receipt)
  (currentBlock : Z) (votesDelegated : value) (w : world) (sb eb power threshold cast : Z) :
  to_number (startBlock proposal) = Num sb ->
  to_number (endBlock proposal) = Num eb ->
  parseInt votesDelegated = Num power ->
  parseInt (MIN_COMP env) = Num threshold ->
  to_number (votingPower receipt) = Num cast ->
  safe_integer sb /\ safe_integer eb /\ safe_integer (eb - 2400)
  /\ safe_integer currentBlock
  /\ safe_integer power /\ safe_integer threshold /\ safe_integer cast ->
  let run := canVote_rules env address proposal receipt currentBlock votesDelegated w in
  (fst run = Ok tt <->
     sb < currentBlock < eb - 2400
     /\ canceled proposal = false
     /\ (threshold <= power \/ isWhitelisted address = true)
     /\ cast <= 0)
  /\ snd run = w.
Proof.
  intros Hs He Hp Hm Hc _ run. subst run.
  unfold canVote_rules, bind, throw_if, js_gt. rewrite Hs, He, Hp, Hm, Hc.
  cbn [js_lt js_sub].
  destruct (Z.ltb_spec sb currentBlock); destruct (Z.ltb_spec currentBlock (eb - 2400));
    destruct (canceled proposal); cbn [negb andb orb throw ret fst snd];
    try (split; [split; [discriminate|intros (? & ? & _); first [lia|discriminate]]|reflexivity]).
  destruct (Z.ltb_spec power threshold); destruct (isWhitelisted address);
    cbn [negb andb throw ret fst snd];
    try (split; [split; [discriminate|intros (_ & _ & [?|?] & _); first [lia|discriminate]]
                |reflexivity]).
  all: destruct (Z.ltb_spec 0 cast); cbn [throw ret fst snd];
    (split; [split; [first [discriminate|intros _; repeat split; auto; lia]
                    |first [reflexivity|intros (_ & _ & _ & ?); lia]]
            |reflexivity]).
Qed.

Lemma canVote_rules_accept_iff_witness :
  let env := sample_env (Ok alice) bob bob 150 VUndefined (Fulfilled tt) in
  let run := canVote_rules env alice sample_proposal (mkReceipt (VStr "0")) 150
               (VStr "150") empty_world in
  (fst run = Ok tt <->
     100 < 150 < 10000 - 2400
     /\ canceled sample_proposal = false
     /\ (100 <= 150 \/ isWhitelisted alice = true)
     /\ 0 <= 0)
  /\ snd run = empty_world.
Proof.
  apply (canVote_rules_accept_iff
           (sample_env (Ok alice) bob bob 150 VUndefined (Fulfilled tt))
           alice sample_proposal (mkReceipt (VStr "0")) 150 (VStr "150") empty_world
           100 10000 150 100 0).
  - reflexivity.
  - reflexivity.
  - reflexivity.
  - reflexivity.
  - reflexivity.
  - unfold safe_integer. cbn. lia.
Defined.

(** X9. The rules reject in the order they are written, lines 272-300.
    Take block bounds, a current block, a voting power and a threshold
    that are integers a double holds exactly (at most 2^53 in absolute
    value, endBlock - 2400 included).  Outside the window or on a
    canceled proposal the answer is "proposal voting period is not
    active" (400) whatever the power and the receipt; inside the window,
    a power below MIN_COMP for an address that is not whitelisted is
    answered "dYdX voting power is too low" (403) whatever the receipt;
    and only then a receipt with recorded voting power is answered
    "address already voted" (400). *)
Theorem canVote_rules_rejections
  (env : Env) (address : string) (proposal : proposal_data) (receipt : vote_receipt)
  (currentBlock : Z) (votesDelegated : value) (w : world)
  (sb eb power threshold cast : Z) :
  to_number (startBlock proposal) = Num sb ->
  to_number (endBlock proposal) = Num eb ->
  parseInt votesDelegated = Num power ->
  parseInt (MIN_COMP env) = Num threshold ->
  to_number (votingPower receipt) = Num cast ->
  safe_integer sb /\ safe_integer eb /\ safe_integer (eb - 2400)
  /\ safe_integer currentBlock
  /\ safe_integer power /\ safe_integer threshold /\ safe_integer cast ->
  let run := canVote_rules env address proposal receipt currentBlock votesDelegated w in
  let active := sb < currentBlock < eb - 2400 /\ canceled proposal = false in
  let low := power < threshold /\ isWhitelisted address = false in
  (~ active ->
   run = (Throw (new_Error "proposal voting period is not active" 400), w))
  /\ (active -> low ->
      run = (Throw (new_Error "dYdX voting power is too low" 403), w))
  /\ (active -> ~ low -> 0 < cast ->
      run = (Throw (new_Error "address already voted" 400), w)).
Proof.
  intros Hs He Hp Hm Hc _ run active low. subst run active low.
  unfold canVote_rules, bind, throw_if. rewrite Hs, He, Hp, Hm, Hc.
  set (inside := js_gt (Num currentBlock) (Num sb)
                 && js_lt (Num currentBlock) (js_sub (Num eb) (Num 2400))).
  assert (Hin : inside = true <-> sb < currentBlock < eb - 2400).
  { subst inside. unfold js_gt, js_lt, js_sub. rewrite andb_true_iff, !Z.ltb_lt. tauto. }
  unfold js_gt. cbn [js_lt].
  destruct inside; destruct (canceled proposal); cbn [negb orb throw ret].
  2: { (* inside the window, not canceled *)
    split; [intros Hn; exfalso; apply Hn; split; [now apply Hin|reflexivity]|].
    destruct (Z.ltb_spec power threshold); destruct (isWhitelisted address);
      cbn [negb andb throw ret];
      (split;
       [ intros _ [H1 H2]; first [reflexivity|discriminate|lia]
       | intros _ Hn Hv;
         first [ now rewrite (proj2 (Z.ltb_lt 0 cast) Hv)
               | exfalso; apply Hn; now split ] ]). }
  all: split; [reflexivity|];
    split; intros [H1 H2]; exfalso;
    first [discriminate | apply Hin in H1; discriminate].
Qed.

Lemma canVote_rules_rejections_witness :
  canVote_rules (sample_env (Ok alice) bob bob 7600 VUndefined (Fulfilled tt))
    alice sample_proposal (mkReceipt (VStr "5")) 7600 (VStr "1") empty_world
  = (Throw (new_Error "proposal voting period is not active" 400), empty_world).
Proof.
  refine (proj1 (canVote_rules_rejections
                   (sample_env (Ok alice) bob bob 7600 VUndefined (Fulfilled tt))
                   alice sample_proposal (mkReceipt (VStr "5")) 7600 (VStr "1") empty_world
                   100 10000 1 100 5 eq_refl eq_refl eq_refl eq_refl eq_refl _) _).
  - unfold safe_integer. cbn. lia.
  - intros [H _]. lia.
Defined.

(** X10. A proposal object that lacks its startBlock or its endBlock is
    never active: the missing field reads as undefined, undefined
    converts to NaN, every comparison with NaN is false, and the window
    test of lines 273-279 fails at every block height. *)
Theorem canVote_rules_missing_bounds
  (env : Env) (address : string) (proposal : proposal_data) (receipt : vote_receipt)
  (currentBlock : Z) (votesDelegated : value) (w : world) :
  startBlock proposal = VUndefined \/ endBlock proposal = VUndefined ->
  canVote_rules env address proposal receipt currentBlock votesDelegated w
    = (Throw (new_Error "proposal voting period is not active" 400), w).
Proof.
  intros Hmiss. unfold canVote_rules, bind, throw_if. unfold js_gt at 1.
  assert (Hw : js_lt (to_number (startBlock proposal)) (Num currentBlock)
               && js_lt (Num currentBlock)
                    (js_sub (to_number (endBlock proposal)) (Num 2400)) = false).
  { destruct Hmiss as [E|E]; rewrite E; cbn [to_number js_lt js_sub andb]; [reflexivity|].
    now rewrite andb_false_r. }
  now rewrite Hw.
Qed.

Lemma canVote_rules_missing_bounds_witness :
  canVote_rules (sample_env (Ok alice) bob bob 150 VUndefined (Fulfilled tt))
    alice (mkProposal (VStr "100") VUndefined false) (mkReceipt (VStr "0")) 150
    (VStr "150") empty_world
  = (Throw (new_Error "proposal voting period is not active" 400), empty_world).
Proof.
  apply (canVote_rules_missing_bounds
           (sample_env (Ok alice) bob bob 150 VUndefined (Fulfilled tt))
           alice (mkProposal (VStr "100") VUndefined false) (mkReceipt (VStr "0")) 150
           (VStr "150") empty_world).
  right. reflexivity.
Defined.

(** X11. The voting-power rule of lines 286-293 never rejects a
    whitelisted address, and never rejects anyone when MIN_COMP or the
    delegated power does not parse to a number. *)
Theorem canVote_rules_power_exemptions
  (env : Env) (address : string) (proposal : proposal_data) (receipt : vote_receipt)
  (currentBlock : Z) (votesDelegated : value) (w : world) :
  isWhitelisted address = true
  \/ parseInt (MIN_COMP env) = NaN
  \/ parseInt votesDelegated = NaN ->
  fst (canVote_rules env address proposal receipt currentBlock votesDelegated w)
    <> Throw (new_Error "dYdX voting power is too low" 403).
Proof.
  intros Hex. unfold canVote_rules, bind, throw_if.
  assert (Hp : js_lt (parseInt votesDelegated) (parseInt (MIN_COMP env))
               && negb (isWhitelisted address) = false).
  { destruct Hex as [E|[E|E]]; rewrite E.
    - now rewrite andb_false_r.
    - now destruct (parseInt votesDelegated).
    - reflexivity. }
  rewrite Hp.
  match goal with
  | |- context [if ?c then throw ?e else ret tt] => destruct c
  end; cbn [throw ret fst]; [discriminate|].
  destruct (js_gt (to_number (votingPower receipt)) (Num 0)); cbn; discriminate.
Qed.

Lemma canVote_rules_power_exemptions_witness :
  fst (canVote_rules (sample_env (Ok alice) bob bob 150 VUndefined (Fulfilled tt))
         "0x5b3bffc0bcf8d4caec873fdcf719f60725767c98" sample_proposal
         (mkReceipt (VStr "0")) 150 (VStr "0") empty_world)
    <> Throw (new_Error "dYdX voting power is too low" 403).
Proof.
  apply (canVote_rules_power_exemptions
           (sample_env (Ok alice) bob bob 150 VUndefined (Fulfilled tt))
           "0x5b3bffc0bcf8d4caec873fdcf719f60725767c98" sample_proposal
           (mkReceipt (VStr "0")) 150 (VStr "0") empty_world).
  left. reflexivity.
Defined.

Lemma isWhitelisted_lowercase (a : string) :
  isWhitelisted a = true -> toLowerCase a = a.
Proof.
  unfold isWhitelisted, whitelist. cbn [existsb].
  rewrite !orb_true_iff, !String.eqb_eq. intros [->|[->|H]]; [reflexivity|reflexivity|discriminate].
Qed.

(** X12. [isWhitelisted], lines 303-309, compares spellings: an address
    it accepts is written in lowercase, and no other spelling of the same
    address (a checksummed one, say) is accepted.  Callers have to
    lowercase first. *)
Theorem isWhitelisted_case_sensitive (a a' : string) :
  isWhitelisted a = true ->
  toLowerCase a' = toLowerCase a ->
  a' <> a ->
  toLowerCase a = a /\ isWhitelisted a' = false.
Proof.
  intros Hin Hsame Hne.
  pose proof (isWhitelisted_lowercase a Hin) as Ha. split; [exact Ha|].
  destruct (isWhitelisted a') eqn:E; [|reflexivity].
  apply isWhitelisted_lowercase in E. congruence.
Qed.

Lemma isWhitelisted_case_sensitive_witness :
  toLowerCase "0x5b3bffc0bcf8d4caec873fdcf719f60725767c98"
    = "0x5b3bffc0bcf8d4caec873fdcf719f60725767c98"
  /\ isWhitelisted "0x5B3bFfC0bcF8D4cAEC873fDcF719F60725767c98" = false.
Proof.
  apply (isWhitelisted_case_sensitive
           "0x5b3bffc0bcf8d4caec873fdcf719f60725767c98"
           "0x5B3bFfC0bcF8D4cAEC873fDcF719F60725767c98").
  - reflexivity.
  - reflexivity.
  - discriminate.
Defined.

(* ================================================================== *)
(** ** [vote], every way it ends *)

Lemma includes_undefined_In (xs : list value) :
  In VUndefined xs -> includes_undefined xs = true.
Proof.
  intro H. unfold includes_undefined. apply existsb_exists.
  exists VUndefined. split; [exact H|reflexivity].
Qed.

(** X13. The first check of [vote] (lines 322-326) and of [delegate]
    (lines 403-407): if any argument is undefined the call throws
    "invalid input" (422) and the world is as it was. *)
Theorem missing_argument_rejected (env : Env) (w : world) :
  (forall address proposalId support v r s,
      In VUndefined [address; proposalId; support; v; r; s] ->
      vote env address proposalId support v r s w
        = (Throw (new_Error "invalid input" 422), w))
  /\ (forall address delegatee nonce expiry v r s,
      In VUndefined [address; delegatee; nonce; expiry; v; r; s] ->
      delegate env address delegatee nonce expiry v r s w
        = (Throw (new_Error "invalid input" 422), w)).
Proof.
  split.
  - intros address proposalId support v r s Hin.
    rewrite vote_unfold. now rewrite (includes_undefined_In _ Hin).
  - intros address delegatee nonce expiry v r s Hin.
    rewrite delegate_unfold. now rewrite (includes_undefined_In _ Hin).
Qed.

Lemma missing_argument_rejected_witness :
  delegate (sample_env (Ok alice) bob bob 150 VUndefined (Fulfilled tt))
    (VStr alice) (VStr bob) (VNum (Num 0)) VUndefined sig_v sig_r sig_s empty_world
  = (Throw (new_Error "invalid input" 422), empty_world).
Proof.
  apply (proj2 (missing_argument_rejected
                  (sample_env (Ok alice) bob bob 150 VUndefined (Fulfilled tt))
                  empty_world)).
  cbn. tauto.
Defined.

(** [canVote] as [vote] calls it, on a text address. *)
Lemma canVote_on_text (env : Env) (a : string) (proposalId : value) (w : world) :
  proposalId <> VUndefined ->
  canVote env (VStr a) proposalId w =
    if isAddress env (toLowerCase a)
    then (Throw blockchain_error, after_reads w [Q_getProposalById proposalId])
    else (Throw (new_Error "invalid from address" 422), w).
Proof.
  intro Hp.
  destruct (isAddress env (toLowerCase a)) eqn:E.
  - apply (canVote_from_valid env (VStr a) proposalId a w);
      [discriminate|exact Hp|reflexivity|exact E].
  - unfold canVote, bind, throw_if. rewrite !typeof_undefined.
    rewrite (is_undefined_false _ Hp). cbn [is_undefined orb ret toString display_string lift].
    now rewrite E.
Qed.

(** [vote] once its address converts and its signature matches. *)
Lemma vote_validated_outcome (env : Env) (a : string)
  (proposalId support v r s : value) (w : world) :
  proposalId <> VUndefined ->
  vote_validated env a proposalId support v r s w =
    if isAddress env (toLowerCase a)
    then (Throw blockchain_error, after_reads w [Q_getProposalById proposalId])
    else (Throw (new_Error "invalid from address" 422), w).
Proof.
  intro Hp. unfold vote_validated, bind, try_catch.
  rewrite (canVote_on_text env a proposalId w Hp).
  destruct (isAddress env (toLowerCase a)); reflexivity.
Qed.

Lemma includes_undefined_second (address proposalId support v r s : value) :
  includes_undefined [address; proposalId; support; v; r; s] = false ->
  proposalId <> VUndefined.
Proof.
  intros H ->. cbn in H. now rewrite orb_true_r in H.
Qed.

(** X14. [vote] never completes and never writes: for every input and
    every environment the call throws, both collections and the outgoing
    requests are as before, and at most one read has been issued, the
    proposal read of [canVote]. *)
Theorem vote_never_completes
  (env : Env) (address proposalId support v r s : value) (w : world) :
  let run := vote env address proposalId support v r s w in
  fst run <> Ok tt
  /\ voteTxs (snd run) = voteTxs w
  /\ delegateTxs (snd run) = delegateTxs w
  /\ requests (snd run) = requests w
  /\ (snd run = w \/ snd run = after_reads w [Q_getProposalById proposalId]).
Proof.
  intro run. subst run.
  destruct (vote_never_persists env address proposalId support v r s w)
    as (K1 & K2 & K3 & K4).
  repeat (split; [assumption|]).
  rewrite vote_unfold.
  destruct (includes_undefined _) eqn:E0; [now left|].
  destruct (toString address) as [a|e]; [|now left].
  destruct (recovered_signer env _ v r s) as [signer|e]; [|now left].
  destruct (String.eqb (toLowerCase a) (toLowerCase signer)); [|now left].
  rewrite (vote_validated_outcome env _ proposalId support v r s w
             (includes_undefined_second _ _ _ _ _ _ E0)).
  destruct (isAddress env _); [now right|now left].
Qed.

(** X15. The errors of [vote] on primitive arguments (undefined, null,
    booleans, numbers and strings, which is all that [value] holds): every
    such call ends with "invalid input" (422), "invalid signature" (422),
    "invalid from address" (422) or "error fetching data from blockchain"
    (500), except a call whose address is null, which ends with the
    TypeError of [address.toString()], an error that carries no code.
    An address that is an object is outside this statement. *)
Theorem vote_errors_classified
  (env : Env) (address proposalId support v r s : value) (w : world) :
  let outcome := fst (vote env address proposalId support v r s w) in
  outcome = Throw (new_Error "invalid input" 422)
  \/ outcome = Throw (new_Error "invalid signature" 422)
  \/ outcome = Throw (new_Error "invalid from address" 422)
  \/ outcome = Throw (new_Error "error fetching data from blockchain" 500)
  \/ (address = VNull
      /\ outcome = Throw (TypeError "Cannot read properties of null (reading 'toString')")
      /\ has_numeric_code
           (TypeError "Cannot read properties of null (reading 'toString')") = false).
Proof.
  intro outcome. subst outcome. rewrite vote_unfold.
  destruct (includes_undefined _) eqn:E0; [now left|].
  pose proof (includes_undefined_second _ _ _ _ _ _ E0) as Hp.
  destruct address; cbn [toString];
    [ cbn in E0; discriminate
    | do 4 right; repeat split
    | | | ].
  all: destruct (recovered_signer env _ v r s) as [signer|e]; [|now right; left].
  all: destruct (String.eqb _ (toLowerCase signer)); [|now right; left].
  all: rewrite vote_validated_outcome by exact Hp.
  all: destruct (isAddress env _); [now do 3 right; left|now do 2 right; left].
Qed.

(* ================================================================== *)
(** ** The signature handed to [recoverTypedSignature] *)

Lemma join_signature_needs_text (v r s : value) :
  (forall str, s <> VStr str) \/ (forall str, v <> VStr str) ->
  exists e, join_signature v r s = Throw e.
Proof.
  intros [H|H]; unfold join_signature.
  - destruct s; cbn; eauto. now destruct (H s).
  - destruct (value_substring2 s); [|eauto].
    destruct v; cbn; eauto. now destruct (H s0).
Qed.

(** X16. A v or an s that is not a string (a number, a boolean, null)
    makes [.substring(2)] throw inside the [try] of lines 333-343 and
    417-427: [vote] and [delegate] answer "invalid signature" (422)
    without calling [recoverTypedSignature], and the world is as it
    was. *)
Theorem malformed_signature_parts (env : Env) (w : world) :
  (forall address proposalId support v r s a,
      includes_undefined [address; proposalId; support; v; r; s] = false ->
      toString address = Ok a ->
      (forall str, s <> VStr str) \/ (forall str, v <> VStr str) ->
      vote env address proposalId support v r s w
        = (Throw (new_Error "invalid signature" 422), w))
  /\ (forall address delegatee nonce expiry v r s a d,
      includes_undefined [address; delegatee; nonce; expiry; v; r; s] = false ->
      toString address = Ok a ->
      toString delegatee = Ok d ->
      (forall str, s <> VStr str) \/ (forall str, v <> VStr str) ->
      delegate env address delegatee nonce expiry v r s w
        = (Throw (new_Error "invalid signature" 422), w)).
Proof.
  split.
  - intros address proposalId support v r s a H0 Ha Hbad.
    rewrite vote_unfold, H0, Ha. unfold recovered_signer.
    destruct (join_signature_needs_text v r s Hbad) as [e ->]. reflexivity.
  - intros address delegatee nonce expiry v r s a d H0 Ha Hd Hbad.
    rewrite delegate_unfold, H0, Ha, Hd. unfold recovered_signer.
    destruct (join_signature_needs_text v r s Hbad) as [e ->]. reflexivity.
Qed.

Lemma malformed_signature_parts_witness :
  vote (sample_env (Ok alice) bob bob 150 VUndefined (Fulfilled tt))
    (VStr alice) (VNum (Num 7)) (VBool true) (VNum (Num 27)) sig_r sig_s empty_world
  = (Throw (new_Error "invalid signature" 422), empty_world).
Proof.
  apply (proj1 (malformed_signature_parts
                  (sample_env (Ok alice) bob bob 150 VUndefined (Fulfilled tt))
                  empty_world)
           (VStr alice) (VNum (Num 7)) (VBool true) (VNum (Num 27)) sig_r sig_s alice).
  - reflexivity.
  - reflexivity.
  - right. intros str. discriminate.
Defined.

Lemma string_length_append (a b : string) :
  String.length (a ++ b) = (String.length a + String.length b)%nat.
Proof.
  induction a as [|c a IH]; cbn; [reflexivity|]. now rewrite IH.
Qed.

(** X17. [r + s.substring(2) + v.substring(2)], lines 336 and 420: for
    text arguments the signature handed to the recovery is r, followed by
    s without its first two characters, followed by v without its first
    two characters, whatever those characters are.  With a 66-character
    r, a 66-character s and a 4-character v it is 132 characters long:
    "0x" and 65 bytes in hexadecimal. *)
Theorem join_signature_canonical (r S V : string) (s1 s2 v1 v2 : ascii) :
  let s := String s1 (String s2 S) in
  let v := String v1 (String v2 V) in
  join_signature (VStr v) (VStr r) (VStr s) = Ok (r ++ S ++ V)
  /\ (String.length r = 66%nat -> String.length s = 66%nat -> String.length v = 4%nat ->
      String.length (r ++ S ++ V) = (2 + 2 * 65)%nat).
Proof.
  cbv zeta. split; [reflexivity|].
  cbn [String.length]. intros Hr Hs Hv.
  rewrite !string_length_append. lia.
Qed.

Lemma join_signature_canonical_witness :
  join_signature (VStr "0x1b") (VStr "0xaaaa") (VStr "0xbbbb") = Ok "0xaaaabbbb1b".
Proof.
  apply (proj1 (join_signature_canonical "0xaaaa" "bbbb" "1b" "0" "x" "0" "x")).
Defined.

(* ================================================================== *)
(** ** [delegate], every way it ends *)

Lemma delegate_signed (env : Env) (address delegatee nonce expiry v r s : value)
  (a d : string) (w : world) :
  includes_undefined [address; delegatee; nonce; expiry; v; r; s] = false ->
  toString address = Ok a ->
  toString delegatee = Ok d ->
  signed_by env (createDelegateBySigMessage (VStr (toLowerCase d)) nonce expiry) v r s a ->
  delegate env address delegatee nonce expiry v r s w
    = delegate_validated env (toLowerCase a) (toLowerCase d) nonce expiry v r s w.
Proof.
  intros H0 Ha Hd (signer & Hs & Hl).
  now rewrite delegate_unfold, H0, Ha, Hd, Hs, Hl, String.eqb_refl.
Qed.

Lemma delegate_with_localeCompare (env : Env)
  (address delegatee nonce expiry v r s : value) :
  delegate_with env localeCompare address delegatee nonce expiry v r s
  = delegate env address delegatee nonce expiry v r s.
Proof.
  reflexivity.
Qed.

Lemma delegate_with_unfold (env : Env) (compare : string -> string -> Z)
  (address delegatee nonce expiry v r s : value) (w : world) :
  delegate_with env compare address delegatee nonce expiry v r s w =
    if includes_undefined [address; delegatee; nonce; expiry; v; r; s]
    then (Throw (new_Error "invalid input" 422), w)
    else
      match toString address with
      | Throw e => (Throw e, w)
      | Ok a =>
          match toString delegatee with
          | Throw e => (Throw e, w)
          | Ok d =>
              match recovered_signer env
                      (createDelegateBySigMessage (VStr (toLowerCase d)) nonce expiry)
                      v r s with
              | Throw _ => (Throw (new_Error "invalid signature" 422), w)
              | Ok signer =>
                  if compare (toLowerCase signer) (toLowerCase a) =? 0
                  then delegate_validated env (toLowerCase a) (toLowerCase d)
                         nonce expiry v r s w
                  else (Throw (new_Error "given address does not match signer address" 422), w)
              end
          end
      end.
Proof.
  unfold delegate_with, bind, throw_if.
  destruct (includes_undefined [address; delegatee; nonce; expiry; v; r; s]);
    cbn [throw ret]; [reflexivity|].
  destruct (toString address) as [a|e]; cbn [lift ret throw]; [|reflexivity].
  destruct (toString delegatee) as [d|e]; cbn [lift ret throw]; [|reflexivity].
  rewrite recover_or_invalid_spec.
  destruct (recovered_signer env _ v r s) as [signer|e]; [|reflexivity].
  rewrite toLowerCase_idempotent.
  destruct (compare (toLowerCase signer) (toLowerCase a) =? 0); reflexivity.
Qed.

(** X18. The signature check of [delegate], lines 415-440, with the
    comparison of line 436 ignoring control characters as the collation
    does.  With all arguments defined and an address and a delegatee that
    convert to text, a recovery that throws is answered "invalid
    signature" (422); and when the claimed address and the recovered
    signer are printable text that differ once both are lowercased, the
    answer is "given address does not match signer address" (422).  In
    both cases the world is as it was: no read, no insert, no
    notification. *)
Theorem delegate_wrong_signer_rejected
  (env : Env) (address delegatee nonce expiry v r s : value) (a d : string) (w : world) :
  includes_undefined [address; delegatee; nonce; expiry; v; r; s] = false ->
  toString address = Ok a ->
  toString delegatee = Ok d ->
  let data := createDelegateBySigMessage (VStr (toLowerCase d)) nonce expiry in
  let run := delegate_collated env address delegatee nonce expiry v r s w in
  (forall e, recovered_signer env data v r s = Throw e ->
             run = (Throw (new_Error "invalid signature" 422), w))
  /\ (forall signer,
        recovered_signer env data v r s = Ok signer ->
        printable a = true ->
        printable signer = true ->
        toLowerCase signer <> toLowerCase a ->
        run = (Throw (new_Error "given address does not match signer address" 422), w)).
Proof.
  intros H0 Ha Hd data run. subst data run.
  unfold delegate_collated. rewrite delegate_with_unfold, H0, Ha, Hd. split.
  - intros e ->. reflexivity.
  - intros signer -> Pa Ps Hne.
    rewrite localeCompare_collated_printable by (now apply printable_toLowerCase).
    now rewrite (proj2 (String.eqb_neq _ _) Hne).
Qed.

Lemma delegate_wrong_signer_rejected_witness :
  delegate_collated (sample_env (Ok bob) bob bob 150 VUndefined (Fulfilled tt))
    (VStr alice_checksummed) (VStr carol) (VNum (Num 0)) (VNum (Num 0))
    sig_v sig_r sig_s empty_world
  = (Throw (new_Error "given address does not match signer address" 422), empty_world).
Proof.
  apply (proj2 (delegate_wrong_signer_rejected
                  (sample_env (Ok bob) bob bob 150 VUndefined (Fulfilled tt))
                  (VStr alice_checksummed) (VStr carol) (VNum (Num 0)) (VNum (Num 0))
                  sig_v sig_r sig_s alice_checksummed carol empty_world
                  eq_refl eq_refl eq_refl) bob).
  - reflexivity.
  - reflexivity.
  - reflexivity.
  - vm_compute. discriminate.
Defined.

(** X19. Eligibility errors through [delegate], lines 442-454: once the
    signature matches, an error thrown by [canDelegate] reaches the caller
    unchanged when it carries a numeric code, and as "error fetching data
    from blockchain" (500) otherwise; nothing is inserted and no
    notification is sent. *)
Theorem delegate_eligibility_error
  (env : Env) (address delegatee nonce expiry v r s : value) (a d : string)
  (e : error) (w w1 : world) :
  includes_undefined [address; delegatee; nonce; expiry; v; r; s] = false ->
  toString address = Ok a ->
  toString delegatee = Ok d ->
  signed_by env (createDelegateBySigMessage (VStr (toLowerCase d)) nonce expiry) v r s a ->
  canDelegate env (VStr (toLowerCase a)) (VStr (toLowerCase d)) w = (Throw e, w1) ->
  delegate env address delegatee nonce expiry v r s w
    = (Throw (if has_numeric_code e then e
              else new_Error "error fetching data from blockchain" 500), w1)
  /\ delegateTxs w1 = delegateTxs w
  /\ requests w1 = requests w.
Proof.
  intros H0 Ha Hd Hsig Hcan.
  rewrite (delegate_signed env address delegatee nonce expiry v r s a d w H0 Ha Hd Hsig).
  destruct (canDelegate_keeps_store env (VStr (toLowerCase a)) (VStr (toLowerCase d)) w)
    as (_ & K2 & K3).
  rewrite Hcan in K2, K3. cbn [snd] in K2, K3.
  unfold delegate_validated, bind, try_catch. rewrite Hcan, rethrow_translated.
  repeat split; assumption.
Qed.

Lemma delegate_eligibility_error_witness :
  let env := sample_env (Ok alice) bob bob 150 VUndefined (Fulfilled tt) in
  let noop := new_Error "delegatee can not be current delegatee" 403 in
  let w1 := after_reads empty_world (delegation_reads alice) in
  delegate env (VStr alice_checksummed) (VStr bob) (VNum (Num 0)) (VNum (Num 0))
    sig_v sig_r sig_s empty_world
    = (Throw (if has_numeric_code noop then noop
              else new_Error "error fetching data from blockchain" 500), w1)
  /\ delegateTxs w1 = delegateTxs empty_world
  /\ requests w1 = requests empty_world.
Proof.
  apply (delegate_eligibility_error
           (sample_env (Ok alice) bob bob 150 VUndefined (Fulfilled tt))
           (VStr alice_checksummed) (VStr bob) (VNum (Num 0)) (VNum (Num 0))
           sig_v sig_r sig_s alice_checksummed bob
           (new_Error "delegatee can not be current delegatee" 403)
           empty_world (after_reads empty_world (delegation_reads alice))).
  - reflexivity.
  - reflexivity.
  - reflexivity.
  - exists alice. split; reflexivity.
  - reflexivity.
Defined.

(** X20. A failed insert, lines 470-471: once the signature matches and
    [canDelegate] has returned, a rejection of [insertDelegateTx] reaches
    the caller as it is (it is not translated), no record is added and no
    notification is sent. *)
Theorem delegate_insert_failure
  (env : Env) (address delegatee nonce expiry v r s : value) (a d : string)
  (t : nat) (e : error) (w w1 : world) :
  includes_undefined [address; delegatee; nonce; expiry; v; r; s] = false ->
  toString address = Ok a ->
  toString delegatee = Ok d ->
  signed_by env (createDelegateBySigMessage (VStr (toLowerCase d)) nonce expiry) v r s a ->
  canDelegate env (VStr (toLowerCase a)) (VStr (toLowerCase d)) w = (Ok tt, w1) ->
  insertDelegateTx_settles env
    (delegate_record env (toLowerCase a) (toLowerCase d) nonce expiry v r s)
    = Rejected t e ->
  delegate env address delegatee nonce expiry v r s w = (Throw e, w1)
  /\ delegateTxs w1 = delegateTxs w
  /\ requests w1 = requests w.
Proof.
  intros H0 Ha Hd Hsig Hcan Hins.
  rewrite (delegate_signed env address delegatee nonce expiry v r s a d w H0 Ha Hd Hsig).
  destruct (canDelegate_keeps_store env (VStr (toLowerCase a)) (VStr (toLowerCase d)) w)
    as (_ & K2 & K3).
  rewrite Hcan in K2, K3. cbn [snd] in K2, K3.
  unfold delegate_validated, bind, try_catch. rewrite Hcan.
  unfold insertDelegateTx. rewrite Hins.
  repeat split; assumption.
Qed.

Lemma delegate_insert_failure_witness :
  let down := mkError "MongoError" "connection closed" (VStr "ECONNRESET") in
  let env :=
    mkEnv lowercase_isAddress (fun _ _ => Ok alice)
      (fun _ => Fulfilled (VStr "150"))
      (fun _ _ => Fulfilled (VStr bob))
      (fun _ => Fulfilled sample_proposal)
      (fun _ _ => Fulfilled (mkReceipt (VStr "0")))
      (Fulfilled 150)
      (fun _ _ _ => Fulfilled (VStr "150"))
      (fun _ => Fulfilled tt)
      (fun _ _ => Fulfilled tt)
      (fun _ => Fulfilled tt) (fun _ => Rejected 1 down) (fun _ => Fulfilled tt)
      (VStr "100") (VStr "https://hook/?text=") 0 in
  let w1 := after_reads empty_world (delegation_reads alice) in
  delegate env (VStr alice) (VStr carol) (VNum (Num 0)) (VNum (Num 0))
    sig_v sig_r sig_s empty_world = (Throw down, w1)
  /\ delegateTxs w1 = delegateTxs empty_world
  /\ requests w1 = requests empty_world.
Proof.
  apply (delegate_insert_failure
           (mkEnv lowercase_isAddress (fun _ _ => Ok alice)
              (fun _ => Fulfilled (VStr "150"))
              (fun _ _ => Fulfilled (VStr bob))
              (fun _ => Fulfilled sample_proposal)
              (fun _ _ => Fulfilled (mkReceipt (VStr "0")))
              (Fulfilled 150)
              (fun _ _ _ => Fulfilled (VStr "150"))
              (fun _ => Fulfilled tt)
              (fun _ _ => Fulfilled tt)
              (fun _ => Fulfilled tt)
              (fun _ => Rejected 1 (mkError "MongoError" "connection closed" (VStr "ECONNRESET")))
              (fun _ => Fulfilled tt)
              (VStr "100") (VStr "https://hook/?text=") 0)
           (VStr alice) (VStr carol) (VNum (Num 0)) (VNum (Num 0))
           sig_v sig_r sig_s alice carol 1
           (mkError "MongoError" "connection closed" (VStr "ECONNRESET"))
           empty_world (after_reads empty_world (delegation_reads alice))).
  - reflexivity.
  - reflexivity.
  - reflexivity.
  - exists alice. split; reflexivity.
  - reflexivity.
  - reflexivity.
Defined.

(** X21. An accepted delegation, lines 456-478: once the signature
    matches, [canDelegate] has returned and the insert is fulfilled, the
    collection has gained exactly one record, whose from and delegatee
    are the lowercased address and delegatee, whose v, r, s, nonce and
    expiry are the arguments as given, whose type is "delegate", whose
    createdAt is the current time and whose executed flag is false; the
    vote collection is untouched.  If NOTIFICATION_HOOK is undefined the
    call completes without a request; if it is set and the request is
    fulfilled the call completes after one request to the hook followed
    by "New dydx.vote delegation sig". *)
Theorem delegate_accepted
  (env : Env) (address delegatee nonce expiry v r s : value) (a d : string)
  (w w1 : world) :
  includes_undefined [address; delegatee; nonce; expiry; v; r; s] = false ->
  toString address = Ok a ->
  toString delegatee = Ok d ->
  signed_by env (createDelegateBySigMessage (VStr (toLowerCase d)) nonce expiry) v r s a ->
  canDelegate env (VStr (toLowerCase a)) (VStr (toLowerCase d)) w = (Ok tt, w1) ->
  let tx := mkDelegateTx (toLowerCase a) (toLowerCase d) v r s nonce expiry
              "delegate" (now env) false in
  let url := display_string (NOTIFICATION_HOOK env) ++ "New dydx.vote delegation sig" in
  insertDelegateTx_settles env tx = Fulfilled tt ->
  is_undefined (NOTIFICATION_HOOK env) = true \/ axios_get env url = Fulfilled tt ->
  delegate env address delegatee nonce expiry v r s w
    = (Ok tt,
       mkWorld (queries w1) (voteTxs w) (delegateTxs w ++ [tx])
         (if is_undefined (NOTIFICATION_HOOK env) then requests w
          else requests w ++ [url])).
Proof.
  intros H0 Ha Hd Hsig Hcan tx url Hins Hhook.
  rewrite (delegate_signed env address delegatee nonce expiry v r s a d w H0 Ha Hd Hsig).
  destruct (canDelegate_keeps_store env (VStr (toLowerCase a)) (VStr (toLowerCase d)) w)
    as (K1 & K2 & K3).
  rewrite Hcan in K1, K2, K3. cbn [snd] in K1, K2, K3.
  unfold delegate_validated, bind, try_catch. rewrite Hcan.
  unfold insertDelegateTx, delegate_record. fold tx. rewrite Hins.
  unfold notify_admin, axios_get_await. rewrite typeof_undefined.
  cbn [queries voteTxs delegateTxs requests]. fold url.
  destruct (is_undefined (NOTIFICATION_HOOK env)) eqn:E; cbn [negb ret].
  - now rewrite K1, K2, K3.
  - destruct Hhook as [Hh|Hh]; [discriminate|]. rewrite Hh. now rewrite K1, K2, K3.
Qed.

Lemma delegate_accepted_witness :
  let env := sample_env (Ok alice) bob bob 150 (VStr "https://hook/?text=") (Fulfilled tt) in
  let w1 := after_reads empty_world (delegation_reads alice) in
  let tx := mkDelegateTx (toLowerCase alice_checksummed) (toLowerCase carol)
              sig_v sig_r sig_s (VNum (Num 4)) (VNum (Num 1893456000))
              "delegate" (now env) false in
  let url := display_string (NOTIFICATION_HOOK env) ++ "New dydx.vote delegation sig" in
  delegate env (VStr alice_checksummed) (VStr carol) (VNum (Num 4)) (VNum (Num 1893456000))
    sig_v sig_r sig_s empty_world
    = (Ok tt,
       mkWorld (queries w1) (voteTxs empty_world) (delegateTxs empty_world ++ [tx])
         (if is_undefined (NOTIFICATION_HOOK env) then requests empty_world
          else requests empty_world ++ [url])).
Proof.
  apply (delegate_accepted
           (sample_env (Ok alice) bob bob 150 (VStr "https://hook/?text=") (Fulfilled tt))
           (VStr alice_checksummed) (VStr carol) (VNum (Num 4)) (VNum (Num 1893456000))
           sig_v sig_r sig_s alice_checksummed carol empty_world
           (after_reads empty_world (delegation_reads alice))).
  - reflexivity.
  - reflexivity.
  - reflexivity.
  - exists alice. split; reflexivity.
  - reflexivity.
  - reflexivity.
  - right. reflexivity.
Defined.

Lemma delegate_validated_requests (env : Env) (a d : string)
  (nonce expiry v r s : value) (w : world) :
  let run := delegate_validated env a d nonce expiry v r s w in
  voteTxs (snd run) = voteTxs w
  /\ ((requests (snd run) = requests w
       /\ (delegateTxs (snd run) = delegateTxs w
           \/ delegateTxs (snd run)
              = (delegateTxs w ++ [delegate_record env a d nonce expiry v r s])%list))
      \/ (delegateTxs (snd run)
            = (delegateTxs w ++ [delegate_record env a d nonce expiry v r s])%list
          /\ requests (snd run)
             = (requests w ++ [(display_string (NOTIFICATION_HOOK env)
                                ++ "New dydx.vote delegation sig")%string])%list)).
Proof.
  intro run. subst run. unfold delegate_validated, bind.
  pose proof (keeps_try_catch _ _ (canDelegate_keeps_store env (VStr a) (VStr d))
                (@keeps_rethrow unit) w) as (K1 & K2 & K3).
  destruct (try_catch (canDelegate env (VStr a) (VStr d)) rethrow_or_blockchain w)
    as [[[]|e] w1]; cbn [fst snd] in *; [|split; [assumption|left; auto]].
  unfold insertDelegateTx.
  destruct (insertDelegateTx_settles env _) as [[]|t e];
    [|cbn; split; [assumption|left; auto]].
  unfold notify_admin, axios_get_await.
  destruct (negb (String.eqb (typeof (NOTIFICATION_HOOK env)) "undefined")).
  - destruct (axios_get env _); cbn; rewrite K1, K2, K3; split; auto.
  - cbn. rewrite K1, K2, K3. split; [reflexivity|left; auto].
Qed.

(** X22. [delegate] notifies only what it has stored: for every input,
    the vote collection is untouched, at most one record is added and at
    most one request is sent; a request is sent only after the record has
    been added, and its URL is NOTIFICATION_HOOK followed by "New
    dydx.vote delegation sig". *)
Theorem delegate_notifies_after_insert
  (env : Env) (address delegatee nonce expiry v r s : value) (w : world) :
  let run := delegate env address delegatee nonce expiry v r s w in
  voteTxs (snd run) = voteTxs w
  /\ ((requests (snd run) = requests w
       /\ (delegateTxs (snd run) = delegateTxs w
           \/ exists tx, delegateTxs (snd run) = (delegateTxs w ++ [tx])%list))
      \/ (exists tx,
            delegateTxs (snd run) = (delegateTxs w ++ [tx])%list
            /\ requests (snd run)
               = (requests w ++ [(display_string (NOTIFICATION_HOOK env)
                                  ++ "New dydx.vote delegation sig")%string])%list)).
Proof.
  intro run.
  destruct (delegate_cases env address delegatee nonce expiry v r s w)
    as [(e & _ & Hd & Hv & Hr)|(a & d & signer & _ & _ & _ & _ & _ & Hrun)];
    fold run in Hd, Hv, Hr || fold run in Hrun.
  - split; [assumption|]. left. auto.
  - rewrite Hrun.
    destruct (delegate_validated_requests env (toLowerCase a) (toLowerCase d)
                nonce expiry v r s w) as (Hv & [(Hr & [Hd|Hd])|(Hd & Hr)]).
    + split; [assumption|]. left. auto.
    + split; [assumption|]. left. split; [assumption|]. right. eauto.
    + split; [assumption|]. right. eauto.
Qed.

(** X23. The catch handlers of the file compose (lines 175-186, 260-270,
    357-367, 444-454): what a handler throws always carries a numeric
    code, so a second handler around the first changes nothing.  The
    handler of [delegate] around [canDelegate], and the one of [vote]
    around [canVote], only ever translate errors thrown outside the inner
    [try]. *)
Theorem catch_handlers_compose {A : Type} (m : M A) (w : world) :
  try_catch (try_catch m rethrow_or_blockchain) rethrow_or_blockchain w
    = try_catch m rethrow_or_blockchain w
  /\ (forall e, fst (try_catch m rethrow_or_blockchain w) = Throw e ->
                has_numeric_code e = true).
Proof.
  unfold try_catch. destruct (m w) as [[a|e] w1].
  - split; [reflexivity|]. cbn. discriminate.
  - rewrite rethrow_translated. rewrite rethrow_translated.
    unfold translated. destruct (has_numeric_code e) eqn:E.
    + rewrite E. split; [reflexivity|]. cbn. intros e' [= <-]. exact E.
    + split; [reflexivity|]. cbn. intros e' [= <-]. reflexivity.
Qed.

(** X24. A null address or delegatee in [delegate]: null is not
    undefined, so it passes the check of lines 403-407, and
    [.toString()] on lines 410-411 throws a TypeError that carries no
    code; the world is as it was. *)
Theorem delegate_null_argument
  (env : Env) (address delegatee nonce expiry v r s : value) (w : world) :
  includes_undefined [address; delegatee; nonce; expiry; v; r; s] = false ->
  address = VNull \/ delegatee = VNull ->
  delegate env address delegatee nonce expiry v r s w
    = (Throw (TypeError "Cannot read properties of null (reading 'toString')"), w)
  /\ has_numeric_code (TypeError "Cannot read properties of null (reading 'toString')")
     = false.
Proof.
  intros H0 Hnull. split; [|reflexivity].
  rewrite delegate_unfold, H0.
  destruct Hnull as [-> | ->]; cbn [toString]; [reflexivity|].
  destruct address; cbn [toString]; try reflexivity.
  cbn in H0. discriminate.
Qed.

Lemma delegate_null_argument_witness :
  delegate (sample_env (Ok alice) bob bob 150 VUndefined (Fulfilled tt))
    (VStr alice) VNull (VNum (Num 0)) (VNum (Num 0)) sig_v sig_r sig_s empty_world
    = (Throw (TypeError "Cannot read properties of null (reading 'toString')"), empty_world)
  /\ has_numeric_code (TypeError "Cannot read properties of null (reading 'toString')")
     = false.
Proof.
  apply (delegate_null_argument
           (sample_env (Ok alice) bob bob 150 VUndefined (Fulfilled tt))
           (VStr alice) VNull (VNum (Num 0)) (VNum (Num 0)) sig_v sig_r sig_s empty_world).
  - reflexivity.
  - right. reflexivity.
Defined.

(** X25. The sentinel through [delegate]: a delegatee spelled "0x" (in
    either case) is defined, so it passes the check of lines 403-407, and
    [canDelegate] treats it as no delegatee given, skipping both the
    isAddress test and the no-op rule.  With a matching signature, a
    valid source address, four fulfilled reads, a sufficient balance and
    a fulfilled insert, the call completes and stores a record whose
    delegatee is "0x". *)
Theorem delegate_sentinel_delegatee
  (env : Env) (address delegatee nonce expiry v r s : value) (a d : string)
  (bal cv cp : value) (u : unit) (w : world) :
  includes_undefined [address; delegatee; nonce; expiry; v; r; s] = false ->
  toString address = Ok a ->
  toString delegatee = Ok d ->
  toLowerCase d = "0x" ->
  signed_by env (createDelegateBySigMessage (VStr "0x") nonce expiry) v r s a ->
  isAddress env (toLowerCase a) = true ->
  balanceOf env (toLowerCase a) = Fulfilled bal ->
  getDelegateeByType env (toLowerCase a) 0 = Fulfilled cv ->
  getDelegateeByType env (toLowerCase a) 1 = Fulfilled cp ->
  delegationAllowed env (toLowerCase a) = Fulfilled u ->
  js_lt (parseInt bal) (parseInt (MIN_COMP env)) = false ->
  let tx := delegate_record env (toLowerCase a) "0x" nonce expiry v r s in
  insertDelegateTx_settles env tx = Fulfilled tt ->
  is_undefined (NOTIFICATION_HOOK env) = true ->
  let run := delegate env address delegatee nonce expiry v r s w in
  fst run = Ok tt
  /\ delegateTxs (snd run) = (delegateTxs w ++ [tx])%list
  /\ dt_delegatee tx = "0x".
Proof.
  intros H0 Ha Hd Hx Hsig Hav H1 H2 H3 H4 Hbal tx Hins Hhook run. subst run.
  rewrite (delegate_signed env address delegatee nonce expiry v r s a d w H0 Ha Hd)
    by (now rewrite Hx).
  rewrite Hx. unfold delegate_validated, bind, try_catch.
  rewrite (canDelegate_fetched env (VStr (toLowerCase a)) (VStr "0x")
             (toLowerCase a) "0x" bal cv cp u w);
    rewrite ?toLowerCase_idempotent; try assumption; try reflexivity; [|now left].
  unfold canDelegate_rules, bind, throw_if. rewrite Hbal.
  cbn [ret toLowerCase lower_ascii String.eqb].
  change (toLowerCase "0x") with "0x". cbn [String.eqb Ascii.eqb Bool.eqb ret throw].
  unfold insertDelegateTx. fold tx. rewrite Hins.
  unfold notify_admin. rewrite typeof_undefined, Hhook. cbn. repeat split.
Qed.

Lemma delegate_sentinel_delegatee_witness :
  let env := sample_env (Ok alice) bob bob 150 VUndefined (Fulfilled tt) in
  let tx := delegate_record env (toLowerCase alice) "0x" (VNum (Num 0)) (VNum (Num 0))
              sig_v sig_r sig_s in
  let run := delegate env (VStr alice) (VStr "0X") (VNum (Num 0)) (VNum (Num 0))
               sig_v sig_r sig_s empty_world in
  fst run = Ok tt
  /\ delegateTxs (snd run) = (delegateTxs empty_world ++ [tx])%list
  /\ dt_delegatee tx = "0x".
Proof.
  apply (delegate_sentinel_delegatee
           (sample_env (Ok alice) bob bob 150 VUndefined (Fulfilled tt))
           (VStr alice) (VStr "0X") (VNum (Num 0)) (VNum (Num 0))
           sig_v sig_r sig_s alice "0X"
           (VStr "150") (VStr bob) (VStr bob) tt empty_world).
  - reflexivity.
  - reflexivity.
  - reflexivity.
  - reflexivity.
  - exists alice. split; reflexivity.
  - reflexivity.
  - reflexivity.
  - reflexivity.
  - reflexivity.
  - reflexivity.
  - reflexivity.
  - reflexivity.
  - reflexivity.
Defined.

Lemma catch_handlers_compose_witness :
  has_numeric_code (new_Error "error fetching data from blockchain" 500) = true.
Proof.
  apply (proj2 (catch_handlers_compose
                  (@throw unit (TypeError "governorBravo is not defined")) empty_world)).
  reflexivity.
Defined.

(* ================================================================== *)
(** ** The signer check on text that nothing has validated *)

Lemma vote_with_localeCompare (env : Env) (address proposalId support v r s : value) :
  vote_with env localeCompare address proposalId support v r s
  = vote env address proposalId support v r s.
Proof.
  reflexivity.
Qed.

Lemma vote_with_unfold (env : Env) (compare : string -> string -> Z)
  (address proposalId support v r s : value) (w : world) :
  vote_with env compare address proposalId support v r s w =
    if includes_undefined [address; proposalId; support; v; r; s]
    then (Throw (new_Error "invalid input" 422), w)
    else
      match toString address with
      | Throw e => (Throw e, w)
      | Ok a =>
          match recovered_signer env (createVoteBySigMessage proposalId support) v r s with
          | Throw _ => (Throw (new_Error "invalid signature" 422), w)
          | Ok signer =>
              if compare (toLowerCase a) (toLowerCase signer) =? 0
              then vote_validated env (toLowerCase a) proposalId support v r s w
              else (Throw (new_Error "invalid signature" 422), w)
          end
      end.
Proof.
  unfold vote_with, bind, throw_if.
  destruct (includes_undefined [address; proposalId; support; v; r; s]);
    cbn [throw ret]; [reflexivity|].
  destruct (toString address) as [a|e]; cbn [lift ret throw]; [|reflexivity].
  rewrite recover_or_invalid_spec.
  destruct (recovered_signer env _ v r s) as [signer|e]; [|reflexivity].
  destruct (compare (toLowerCase a) (toLowerCase signer) =? 0); reflexivity.
Qed.

(** C4, as stated, fails: a claimed address that is the signer followed
    by the control character U+0001 differs from the recovered signer,
    yet the comparison of line 349 is 0, the signer check passes, and the
    call only ends in [canVote], with "invalid from address". *)
Lemma vote_signer_check_ignores_control_characters :
  let env := sample_env (Ok alice) bob bob 150 VUndefined (Fulfilled tt) in
  let claimed := alice ++ String "001"%char EmptyString in
  toLowerCase alice <> toLowerCase claimed
  /\ vote_collated env (VStr claimed) (VNum (Num 7)) (VBool true) sig_v sig_r sig_s empty_world
     = (Throw (new_Error "invalid from address" 422), empty_world)
  /\ ~ wrong_signer_always_invalid_signature.
Proof.
  cbv zeta. split; [vm_compute; discriminate|]. split; [reflexivity|].
  intro H.
  specialize (H (sample_env (Ok alice) bob bob 150 VUndefined (Fulfilled tt))
                (VStr (alice ++ String "001"%char EmptyString))
                (VNum (Num 7)) (VBool true) sig_v sig_r sig_s
                (alice ++ String "001"%char EmptyString) empty_world
                eq_refl eq_refl).
  assert (Hdiff : forall signer,
             recovered_signer
               (sample_env (Ok alice) bob bob 150 VUndefined (Fulfilled tt))
               (createVoteBySigMessage (VNum (Num 7)) (VBool true)) sig_v sig_r sig_s
             = Ok signer ->
             toLowerCase signer
             <> toLowerCase (alice ++ String "001"%char EmptyString)).
  { intros signer Hs. vm_compute in Hs. inversion Hs. vm_compute. discriminate. }
  specialize (H Hdiff). vm_compute in H. discriminate.
Qed.

(** C4, amended.  Take a [vote] call with all six arguments defined and
    an address that converts to text.  (1) If the recovery throws, or if
    the address and the recovered signer are printable text that differ
    once both are lowercased, the call throws "invalid signature" (422)
    and leaves the world as it found it: no read, no insert, no
    notification.  (2) If the address differs from the signer only by
    control characters that the comparison of line 349 ignores, the
    signer check passes and the call goes on to [canVote], which answers
    "invalid from address" (422) when isAddress rejects the address and
    the blockchain error (500) otherwise.  (3) In every case the call
    throws and nothing is written: the two collections and the outgoing
    requests are as before. *)
Theorem vote_wrong_signer_rejected
  (env : Env) (address proposalId support v r s : value) (a : string) (w : world) :
  includes_undefined [address; proposalId; support; v; r; s] = false ->
  toString address = Ok a ->
  let data := createVoteBySigMessage proposalId support in
  let run := vote_collated env address proposalId support v r s w in
  ((forall signer,
       recovered_signer env data v r s = Ok signer ->
       printable a = true /\ printable signer = true
       /\ toLowerCase signer <> toLowerCase a) ->
   fst run = Throw (new_Error "invalid signature" 422) /\ snd run = w)
  /\ (forall signer,
        recovered_signer env data v r s = Ok signer ->
        collation_key (toLowerCase a) = collation_key (toLowerCase signer) ->
        run = if isAddress env (toLowerCase a)
              then (Throw (new_Error "error fetching data from blockchain" 500),
                    after_reads w [Q_getProposalById proposalId])
              else (Throw (new_Error "invalid from address" 422), w))
  /\ (fst run <> Ok tt
      /\ voteTxs (snd run) = voteTxs w
      /\ delegateTxs (snd run) = delegateTxs w
      /\ requests (snd run) = requests w).
Proof.
  intros H0 Ha data run. subst data run.
  pose proof (includes_undefined_second _ _ _ _ _ _ H0) as Hp.
  unfold vote_collated. rewrite vote_with_unfold, H0, Ha.
  destruct (recovered_signer env (createVoteBySigMessage proposalId support) v r s)
    as [signer|e] eqn:E.
  2:{ repeat split; cbn; discriminate. }
  rewrite (vote_validated_outcome env (toLowerCase a) proposalId support v r s w Hp).
  rewrite toLowerCase_idempotent.
  split; [|split].
  - intros Hsig. destruct (Hsig signer eq_refl) as (Pa & Ps & Hne).
    rewrite localeCompare_collated_printable
      by (first [now apply printable_toLowerCase]).
    assert (Hneq : String.eqb (toLowerCase a) (toLowerCase signer) = false).
    { apply String.eqb_neq. congruence. }
    rewrite Hneq. split; reflexivity.
  - intros signer' [= <-] Hkey.
    now rewrite (localeCompare_collated_same_key _ _ Hkey).
  - destruct (localeCompare_collated (toLowerCase a) (toLowerCase signer) =? 0);
      [destruct (isAddress env (toLowerCase a))|]; cbn; repeat split; discriminate.
Qed.

Lemma vote_wrong_signer_rejected_witness :
  let run :=
    vote_collated (sample_env (Ok bob) bob bob 150 VUndefined (Fulfilled tt))
      (VStr alice_checksummed) (VNum (Num 7)) (VBool true) sig_v sig_r sig_s empty_world in
  fst run = Throw (new_Error "invalid signature" 422) /\ snd run = empty_world.
Proof.
  apply (proj1 (vote_wrong_signer_rejected
                  (sample_env (Ok bob) bob bob 150 VUndefined (Fulfilled tt))
                  (VStr alice_checksummed) (VNum (Num 7)) (VBool true) sig_v sig_r sig_s
                  alice_checksummed empty_world eq_refl eq_refl)).
  intros signer H. vm_compute in H. inversion H.
  split; [reflexivity|]. split; [reflexivity|]. vm_compute. discriminate.
Defined.
